(** * Verification of the rule-based ticket analyzer

    Shallow embedding of [backend/app/analyzer/nlp_engine.py]: the keyword
    tables, the text normaliser, the category scorer, the urgency detector,
    the priority resolver, the confidence estimator, the refund override and
    the pipeline entry point, followed by the properties stated about them.

    Data model.
    - A Python [str] is a [string]: one [ascii] per code point, so the
      embedding covers every message whose code points are below 256
      (ASCII and Latin-1).  [str.lower], [str.strip] and the regular
      expression class [\s] are written out for exactly that range.
    - A Python [float] is an IEEE-754 binary64 value, a [spec_float] of the
      Standard Library with precision 53 and maximal exponent 1024; every
      arithmetic operation rounds to nearest, ties to even, as the hardware
      does.
    - A [dict] whose iteration order matters is an association list in
      insertion order.
    - The [AnalysisResult] dataclass is a record; the in-place mutation done
      by [_apply_custom_rules] is a functional update of that record.
    - Of the ticket service and controller the embedding keeps what they
      compute: the row built from an analysis and the keyword list read
      back from its comma-separated column.  The database session and the
      HTTP layer are outside it. *)

From Stdlib Require Import List String Ascii Bool Arith ZArith Lia SpecFloat.
Import ListNotations.

Local Open Scope string_scope.
Local Open Scope list_scope.

(* ------------------------------------------------------------------ *)
(** ** Python strings *)
(* ------------------------------------------------------------------ *)

Module PyStr.

(** [str.isspace] on one code point below 256: TAB..CR, FS..US, space,
    NEL (0x85) and NBSP (0xA0).  The class [\s] of [re] on a [str] pattern
    is the same set. *)
Definition is_space (c : ascii) : bool :=
  let n := nat_of_ascii c in
  (((9 <=? n) && (n <=? 13)) || ((28 <=? n) && (n <=? 32))
   || (n =? 133) || (n =? 160))%nat.

(** [str.lower] on one code point below 256: A..Z and the Latin-1 capitals
    U+00C0..U+00DE (the multiplication sign U+00D7 apart) move up by 32. *)
Definition lower_char (c : ascii) : ascii :=
  let n := nat_of_ascii c in
  if (((65 <=? n) && (n <=? 90))
      || ((192 <=? n) && (n <=? 222) && negb (n =? 215)))%nat
  then ascii_of_nat (n + 32) else c.

Fixpoint lower (s : string) : string :=
  match s with
  | EmptyString => EmptyString
  | String c r => String (lower_char c) (lower r)
  end.

Fixpoint lstrip (s : string) : string :=
  match s with
  | EmptyString => EmptyString
  | String c r => if is_space c then lstrip r else s
  end.

Fixpoint rstrip (s : string) : string :=
  match s with
  | EmptyString => EmptyString
  | String c r =>
      match rstrip r with
      | EmptyString => if is_space c then EmptyString else String c EmptyString
      | r' => String c r'
      end
  end.

(** [s.strip()] *)
Definition strip (s : string) : string := rstrip (lstrip s).

(** [re.sub(r"\s+", " ", s)]: every maximal run of white space becomes one
    space.  [in_run] records that the previous character was white space. *)
Fixpoint sub_spaces (in_run : bool) (s : string) : string :=
  match s with
  | EmptyString => EmptyString
  | String c r =>
      if is_space c
      then if in_run then sub_spaces true r
           else String " "%char (sub_spaces true r)
      else String c (sub_spaces false r)
  end.

(** [sub in s] on strings: [sub] occurs in [s] as a contiguous substring. *)
Fixpoint str_in (sub s : string) : bool :=
  String.prefix sub s
  || match s with
     | EmptyString => false
     | String _ r => str_in sub r
     end.

(** [x in l] on a list of strings. *)
Definition list_in (x : string) (l : list string) : bool :=
  existsb (String.eqb x) l.

(** [list(dict.fromkeys(l))]: the first occurrence of every element, in
    order. *)
Fixpoint fromkeys_aux (seen l : list string) : list string :=
  match l with
  | [] => []
  | x :: r =>
      if list_in x seen then fromkeys_aux seen r
      else x :: fromkeys_aux (x :: seen) r
  end.

Definition fromkeys (l : list string) : list string := fromkeys_aux [] l.

End PyStr.

(* ------------------------------------------------------------------ *)
(** ** Python dictionaries with string keys, in insertion order *)
(* ------------------------------------------------------------------ *)

Module PyDict.

Section Dict.
Context {V : Type}.

Definition dict := list (string * V).

(** [d[k]]; [None] stands for [KeyError]. *)
Fixpoint get (d : dict) (k : string) : option V :=
  match d with
  | [] => None
  | (k', v) :: r => if String.eqb k k' then Some v else get r k
  end.

(** [d[k] = v]: an existing key keeps its position, a new one goes last. *)
Fixpoint set (d : dict) (k : string) (v : V) : dict :=
  match d with
  | [] => [(k, v)]
  | (k', v') :: r =>
      if String.eqb k k' then (k', v) :: r else (k', v') :: set r k v
  end.

(** Iterating a dictionary yields its keys. *)
Definition keys (d : dict) : list string := map fst d.

End Dict.

Arguments dict V : clear implicits.

(** [max(it, key=f)]: the first element whose key is not exceeded; [None]
    stands for the [ValueError] raised on an empty iterable. *)
Definition max_by {A : Type} (key : A -> nat) (l : list A) : option A :=
  match l with
  | [] => None
  | x :: r =>
      Some (fold_left
              (fun best y => if (key best <? key y)%nat then y else best) r x)
  end.

End PyDict.

(* ------------------------------------------------------------------ *)
(** ** Python floats: IEEE-754 binary64 *)
(* ------------------------------------------------------------------ *)

Module PyFloat.

Local Open Scope Z_scope.

Definition prec : Z := 53.
Definition emax : Z := 1024.

Definition float := spec_float.

Definition add : float -> float -> float := SFadd prec emax.
Definition mul : float -> float -> float := SFmul prec emax.
Definition div : float -> float -> float := SFdiv prec emax.
Definition ltb : float -> float -> bool := SFltb.
Definition leb : float -> float -> bool := SFleb.

(** The binary64 value nearest to the rational [(-1)^s * p / q] (ties to
    even): the long division of [SFdiv] run on the two integers. *)
Definition of_ratio (s : bool) (p q : positive) : float :=
  let '(mz, ez, lz) := SFdiv_core_binary prec emax (Zpos p) 0 (Zpos q) 0 in
  binary_round_aux prec emax s mz ez lz.

(** A decimal literal [p / q] of the source text, read as the parser does:
    the nearest binary64 value. *)
Definition lit (p q : positive) : float := of_ratio false p q.

(** [float(n)] for an [int]: the nearest binary64 value.  CPython raises
    [OverflowError] beyond the binary64 range, where this function yields
    an infinity; no list is long enough for its length to get there. *)
Definition of_int (n : Z) : float := binary_normalize prec emax n 0 false.

(** [min(a, b)] of two arguments: [b] replaces [a] only when [b < a]. *)
Definition py_min (a b : float) : float := if ltb b a then b else a.

(** The integer nearest to [m * 100 * 2^e], ties to even, for [e < 0]. *)
Definition hundredths (m : positive) (e : Z) : Z :=
  let d := 2 ^ (- e) in
  let q := (Zpos m * 100) / d in
  let r := (Zpos m * 100) mod d in
  match 2 * r ?= d with
  | Lt => q
  | Gt => q + 1
  | Eq => if Z.even q then q else q + 1
  end.

(** [round(x, 2)]: CPython prints the exact value of [x] with two digits
    after the point, correctly rounded with ties to even, and reads the
    digits back as a float.  An integral value, an infinity and a NaN are
    returned unchanged. *)
Definition round2 (x : float) : float :=
  match x with
  | S754_finite s m e =>
      if 0 <=? e then x
      else match hundredths m e with
           | Zpos k => of_ratio s k 100
           | _ => S754_zero s
           end
  | _ => x
  end.

End PyFloat.

(* ------------------------------------------------------------------ *)
(** ** The analyzer: [backend/app/analyzer/nlp_engine.py] *)
(* ------------------------------------------------------------------ *)

Module NlpEngine.

Import PyStr.

(** *** Keyword dictionaries *)

Definition CATEGORY_KEYWORDS : PyDict.dict (list string) :=
  [ ("Billing",   ["payment"; "refund"; "invoice"; "charge"; "billing";
                   "money back"; "subscription"; "pricing"; "receipt"]);
    ("Technical", ["error"; "bug"; "crash"; "not working"; "broken";
                   "failed"; "glitch"; "outage"; "slow"; "timeout";
                   "exception"]);
    ("Account",   ["login"; "password"; "account locked"; "account";
                   "sign in"; "signup"; "register"; "locked out";
                   "two factor"; "2fa"; "authentication"]);
    ("Feature",   ["request"; "feature"; "add option"; "enhancement";
                   "suggestion"; "wishlist"; "improve"; "would like"]) ].

Definition URGENCY_KEYWORDS : list string :=
  ["urgent"; "asap"; "immediately"; "down"; "critical";
   "emergency"; "right now"; "escalate"; "blocked"].

Definition P0_KEYWORDS : list string :=
  ["system down"; "security breach"; "data loss"; "outage"].

Definition P1_KEYWORDS : list string :=
  ["urgent"; "critical"; "immediately"; "asap"].

Definition CUSTOM_BILLING_TRIGGERS : list string := ["refund"; "money back"].

(** *** Analysis result data class *)

Record AnalysisResult : Type := mkAnalysisResult {
  category : string;
  priority : string;
  urgency : bool;
  keywords : list string;
  confidence : PyFloat.float
}.

(** *** Core analysis functions *)

(** [re.sub(r"\s+", " ", text.lower().strip())] *)
Definition _normalize (text : string) : string :=
  sub_spaces false (strip (lower text)).

(** [[kw for kw in kws if kw in normalized]] *)
Definition matching (kws : list string) (normalized : string) : list string :=
  filter (fun kw => str_in kw normalized) kws.

(** [any(kw in normalized for kw in kws)] *)
Definition any_in (kws : list string) (normalized : string) : bool :=
  existsb (fun kw => str_in kw normalized) kws.

(** The loop that fills [scores]: a category gets an entry only when its
    list of matched keywords is not empty. *)
Definition fill_scores (normalized : string) : PyDict.dict (list string) :=
  fold_left
    (fun scores (item : string * list string) =>
       let '(category, kws) := item in
       let matched := matching kws normalized in
       match matched with
       | [] => scores
       | _ :: _ => PyDict.set scores category matched
       end)
    CATEGORY_KEYWORDS [].

(** The length of [scores[c]], the key of the [max] call. *)
Definition score_len (scores : PyDict.dict (list string)) (c : string) : nat :=
  match PyDict.get scores c with
  | Some matched => List.length matched
  | None => 0
  end.

Definition classify_category (text : string) : string * list string :=
  let normalized := _normalize text in
  let scores := fill_scores normalized in
  match scores with
  | [] => ("Other", [])
  | _ :: _ =>
      match PyDict.max_by (score_len scores) (PyDict.keys scores) with
      | Some best =>
          match PyDict.get scores best with
          | Some matched => (best, matched)
          | None => (best, [])     (* KeyError: [best] is a key of [scores] *)
          end
      | None => ("Other", [])      (* ValueError: [scores] is not empty *)
      end
  end.

Definition detect_urgency (text : string) : bool * list string :=
  let normalized := _normalize text in
  let matched := matching URGENCY_KEYWORDS normalized in
  (match matched with [] => false | _ :: _ => true end, matched).

Definition determine_priority
    (text category : string) (is_urgent : bool) : string :=
  let normalized := _normalize text in
  if any_in P0_KEYWORDS normalized then "P0"
  else if is_urgent || any_in P1_KEYWORDS normalized then "P1"
  else if list_in category ["Billing"; "Technical"; "Account"] then "P2"
  else "P3".

Definition calculate_confidence
    (matched_keywords urgency_keywords : list string) (category : string)
    : PyFloat.float :=
  let total_matches :=
    (List.length matched_keywords + List.length urgency_keywords)%nat in
  if (total_matches =? 0)%nat then PyFloat.lit 3 10
  else
    let raw := PyFloat.py_min
                 (PyFloat.div (PyFloat.of_int (Z.of_nat total_matches))
                              (PyFloat.lit 5 1))
                 (PyFloat.lit 1 1) in
    let base := PyFloat.add (PyFloat.lit 1 2)
                            (PyFloat.mul raw (PyFloat.lit 45 100)) in
    let base :=
      if negb (String.eqb category "Other")
      then PyFloat.py_min (PyFloat.add base (PyFloat.lit 5 100))
                          (PyFloat.lit 1 1)
      else base in
    PyFloat.round2 base.

(** One turn of the loop over [CUSTOM_BILLING_TRIGGERS]. *)
Definition append_trigger (normalized : string)
    (kws : list string) (trigger : string) : list string :=
  if str_in trigger normalized && negb (list_in trigger kws)
  then kws ++ [trigger] else kws.

Definition _apply_custom_rules
    (text : string) (result : AnalysisResult) : AnalysisResult :=
  let normalized := _normalize text in
  if any_in CUSTOM_BILLING_TRIGGERS normalized then
    {| category := "Billing";
       priority := if negb (list_in (priority result) ["P0"])
                   then "P1" else priority result;
       urgency := urgency result;
       keywords := fold_left (append_trigger normalized)
                             CUSTOM_BILLING_TRIGGERS (keywords result);
       confidence := confidence result |}
  else result.

(** *** Public API *)

Definition analyze_ticket (message : string) : AnalysisResult :=
  let '(category, cat_keywords) := classify_category message in
  let '(is_urgent, urg_keywords) := detect_urgency message in
  let priority := determine_priority message category is_urgent in
  let all_keywords := fromkeys (cat_keywords ++ urg_keywords) in
  let confidence := calculate_confidence cat_keywords urg_keywords category in
  _apply_custom_rules message
    {| category := category;
       priority := priority;
       urgency := is_urgent;
       keywords := all_keywords;
       confidence := confidence |}.

End NlpEngine.

(* ------------------------------------------------------------------ *)
(** ** Vocabulary of the specification *)
(* ------------------------------------------------------------------ *)

Module Spec.

Import PyStr NlpEngine.

(** The five category names and the four priority tiers. *)
Definition CATEGORIES : list string :=
  ["Billing"; "Technical"; "Account"; "Feature"; "Other"].

Definition PRIORITIES : list string := ["P0"; "P1"; "P2"; "P3"].

(** Number of keywords of [kws] that occur in the normalized text. *)
Definition hits (kws : list string) (normalized : string) : nat :=
  List.length (matching kws normalized).

(** The keyword list declared for a category; empty for "Other". *)
Definition keywords_of (c : string) : list string :=
  match PyDict.get CATEGORY_KEYWORDS c with
  | Some kws => kws
  | None => []
  end.

(** [first_best normalized c kws]: the entry [(c, kws)] of the keyword
    table matches at least once, strictly beats every entry declared
    before it and is not beaten by any entry declared after it. *)
Definition first_best (normalized c : string) (kws : list string) : Prop :=
  exists before after,
    CATEGORY_KEYWORDS = before ++ (c, kws) :: after /\
    (0 < hits kws normalized)%nat /\
    (forall c' kws', In (c', kws') before ->
       (hits kws' normalized < hits kws normalized)%nat) /\
    (forall c' kws', In (c', kws') after ->
       (hits kws' normalized <= hits kws normalized)%nat).

(** A duplicate check that computes. *)
Fixpoint nodupb (l : list string) : bool :=
  match l with
  | [] => true
  | x :: r => negb (list_in x r) && nodupb r
  end.

(** The text triggers the refund rule. *)
Definition triggers_override (normalized : string) : Prop :=
  str_in "refund" normalized = true \/ str_in "money back" normalized = true.

Local Open Scope Z_scope.

(** The binary64 values of 5.0 and 1.0, mantissa and exponent. *)
Definition five : PyFloat.float := S754_finite false 5629499534213120 (-50).
Definition one : PyFloat.float := S754_finite false 4503599627370496 (-52).

(** [at_least mc ec r]: [r] is a normal positive binary64 value not below
    [mc * 2^ec], or positive infinity. *)
Definition at_least (mc ec : Z) (r : PyFloat.float) : Prop :=
  r = S754_infinity false \/
  exists m e, r = S754_finite false m e /\ Zpos (digits2_pos m) = 53 /\
              (ec < e \/ (e = ec /\ mc <= Zpos m)).

(** The mathematical minimum of two floats. *)
Definition fmin (a b : PyFloat.float) : PyFloat.float :=
  if PyFloat.leb a b then a else b.

(** The confidence estimator as the specification words it: a function of
    the total number of matches and of the category. *)
Definition confidence_spec (totalMatches : nat) (category : string)
    : PyFloat.float :=
  if (totalMatches =? 0)%nat then PyFloat.lit 3 10
  else
    let raw := fmin (PyFloat.div (PyFloat.of_int (Z.of_nat totalMatches))
                                 (PyFloat.lit 5 1))
                    (PyFloat.lit 1 1) in
    let base := PyFloat.add (PyFloat.lit 1 2)
                            (PyFloat.mul raw (PyFloat.lit 45 100)) in
    let boosted :=
      if String.eqb category "Other" then base
      else fmin (PyFloat.add base (PyFloat.lit 5 100)) (PyFloat.lit 1 1) in
    PyFloat.round2 boosted.

(** The score in hundredths, by total number of matches; [other] tells
    that the category is "Other". *)
Definition confidence_hundredths (total : nat) (other : bool) : positive :=
  match total with
  | 0%nat => 30
  | 1%nat => if other then 59 else 64
  | 2%nat => if other then 68 else 73
  | 3%nat => if other then 77 else 82
  | 4%nat => if other then 86 else 91
  | _ => if other then 95 else 100
  end%positive.

(** The scores the estimator can return, in hundredths. *)
Definition SCORES : list positive :=
  [30; 59; 64; 68; 73; 77; 82; 86; 91; 95; 100]%positive.

End Spec.

(* ------------------------------------------------------------------ *)
(** ** Storing and returning a ticket:
       [backend/app/services/ticket_service.py] and
       [backend/app/controllers/ticket_controller.py] *)
(* ------------------------------------------------------------------ *)

Module TicketService.

(** [sep.join(l)] *)
Fixpoint join (sep : string) (l : list string) : string :=
  match l with
  | [] => EmptyString
  | [x] => x
  | x :: r => (x ++ sep ++ join sep r)%string
  end.

(** [s.split(sep)] for a separator of one character: the pieces between
    the occurrences of [sep]; the empty string gives one empty piece. *)
Fixpoint split (sep : ascii) (s : string) : list string :=
  match s with
  | EmptyString => [EmptyString]
  | String c r =>
      if Ascii.eqb c sep then EmptyString :: split sep r
      else match split sep r with
           | piece :: pieces => String c piece :: pieces
           | [] => [String c EmptyString]
           end
  end.

(** The columns of the [Ticket] row that [analyze_and_store_ticket] fills
    in; [id] and [created_at] are assigned by the database. *)
Record Ticket : Type := mkTicket {
  message : string;
  category : string;
  priority : string;
  urgency : bool;
  keywords : string;
  confidence : PyFloat.float
}.

(** The [Ticket(...)] built by [analyze_and_store_ticket] before it is
    handed to the session: the keywords are stored as one comma-separated
    string. *)
Definition new_ticket (msg : string) : Ticket :=
  let result := NlpEngine.analyze_ticket msg in
  {| message := msg;
     category := NlpEngine.category result;
     priority := NlpEngine.priority result;
     urgency := NlpEngine.urgency result;
     keywords := join "," (NlpEngine.keywords result);
     confidence := NlpEngine.confidence result |}.

(** [t.keywords.split(",") if t.keywords else []], the keyword list that
    [handle_analyze_ticket] and [handle_get_tickets] put in a response. *)
Definition response_keywords (t : Ticket) : list string :=
  match keywords t with
  | EmptyString => []
  | column => split ","%char column
  end.

End TicketService.

(* ------------------------------------------------------------------ *)
(** ** Vocabulary for the shape of normalized text *)
(* ------------------------------------------------------------------ *)

Module NormalForm.

Import PyStr.

(** The string does not begin with white space. *)
Definition starts_clean (s : string) : bool :=
  match s with
  | EmptyString => true
  | String c _ => negb (is_space c)
  end.

(** The string does not end with white space. *)
Fixpoint ends_clean (s : string) : bool :=
  match s with
  | EmptyString => true
  | String c EmptyString => negb (is_space c)
  | String _ r => ends_clean r
  end.

(** No white space character follows another one; [prev] tells that the
    character before the string is white space. *)
Fixpoint no_run (prev : bool) (s : string) : bool :=
  match s with
  | EmptyString => true
  | String c r =>
      if is_space c then negb prev && no_run true r else no_run false r
  end.

(** Every character satisfies [p]. *)
Fixpoint all_chars (p : ascii -> bool) (s : string) : bool :=
  match s with
  | EmptyString => true
  | String c r => p c && all_chars p r
  end.

(** Every white space character is the plain space. *)
Definition plain_spaces (s : string) : bool :=
  all_chars (fun c => negb (is_space c) || Ascii.eqb c " "%char) s.

(** The text consists of white space only. *)
Definition blank (s : string) : bool := all_chars is_space s.

End NormalForm.

(* ------------------------------------------------------------------ *)
(** ** Facts on binary64 rounding *)
(* ------------------------------------------------------------------ *)

Module PyFloatFacts.

Import PyFloat Spec.
Local Open Scope Z_scope.

Lemma digits2_pos_bounds (p : positive) :
  2 ^ (Zpos (digits2_pos p) - 1) <= Zpos p < 2 ^ Zpos (digits2_pos p).
Proof.
  induction p as [p IH | p IH | ]; cbn [digits2_pos].
  - rewrite Pos2Z.inj_succ.
    replace (Z.succ (Zpos (digits2_pos p)) - 1)
      with (Z.succ (Zpos (digits2_pos p) - 1)) by lia.
    rewrite !Z.pow_succ_r by lia. lia.
  - rewrite Pos2Z.inj_succ.
    replace (Z.succ (Zpos (digits2_pos p)) - 1)
      with (Z.succ (Zpos (digits2_pos p) - 1)) by lia.
    rewrite !Z.pow_succ_r by lia. lia.
  - simpl. lia.
Qed.

Lemma digits2_pos_unique (p : positive) (d : Z) :
  2 ^ (d - 1) <= Zpos p < 2 ^ d -> Zpos (digits2_pos p) = d.
Proof.
  intros [Hlo Hhi].
  pose proof (digits2_pos_bounds p) as [Blo Bhi].
  assert (0 < d).
  { destruct (Z_lt_le_dec 0 d); [assumption | ].
    assert (2 ^ d <= 2 ^ 0) by (apply Z.pow_le_mono_r; lia).
    simpl in *; lia. }
  destruct (Z.lt_trichotomy (Zpos (digits2_pos p)) d) as [L | [E | G]];
    [ | assumption | ].
  - assert (2 ^ Zpos (digits2_pos p) <= 2 ^ (d - 1))
      by (apply Z.pow_le_mono_r; lia).
    lia.
  - assert (2 ^ d <= 2 ^ (Zpos (digits2_pos p) - 1))
      by (apply Z.pow_le_mono_r; lia).
    lia.
Qed.

(** One right shift halves the mantissa. *)
Lemma shr_1_m (r : shr_record) :
  0 <= shr_m r -> shr_m (shr_1 r) = shr_m r / 2.
Proof.
  destruct r as [m b s]; cbn [shr_m]; intros Hm.
  destruct m as [ | [p | p | ] | p ]; cbn [shr_1 shr_m];
    try reflexivity; try lia.
  - apply Z.div_unique with 1; lia.
  - apply Z.div_unique with 0; lia.
Qed.

Lemma pow2_xI (p : positive) : 2 ^ Zpos p~1 = 2 * (2 ^ Zpos p * 2 ^ Zpos p).
Proof.
  rewrite (Pos2Z.inj_xI p).
  replace (2 * Zpos p + 1) with (1 + (Zpos p + Zpos p)) by lia.
  rewrite !Z.pow_add_r by lia. reflexivity.
Qed.

Lemma pow2_xO (p : positive) : 2 ^ Zpos p~0 = 2 ^ Zpos p * 2 ^ Zpos p.
Proof.
  rewrite (Pos2Z.inj_xO p).
  replace (2 * Zpos p) with (Zpos p + Zpos p) by lia.
  rewrite Z.pow_add_r by lia. reflexivity.
Qed.

(** [p] right shifts divide the mantissa by [2^p]. *)
Lemma iter_shr_1_m (p : positive) : forall r : shr_record,
  0 <= shr_m r -> shr_m (iter_pos shr_1 p r) = shr_m r / 2 ^ Zpos p.
Proof.
  assert (Hnn : forall r, 0 <= shr_m r -> 0 <= shr_m (shr_1 r)).
  { intros r Hr. rewrite shr_1_m by assumption. apply Z.div_pos; lia. }
  assert (Hpos : forall q : positive, 0 < 2 ^ Zpos q)
    by (intros; apply Z.pow_pos_nonneg; lia).
  induction p as [p IH | p IH | ]; intros r Hr; cbn [iter_pos].
  - specialize (Hpos p).
    rewrite IH, IH, shr_1_m; try assumption.
    + rewrite !Z.div_div by lia. rewrite pow2_xI. f_equal; lia.
    + auto.
    + rewrite IH by auto. apply Z.div_pos; [auto | lia].
  - specialize (Hpos p).
    rewrite IH, IH; try assumption.
    + rewrite Z.div_div by lia. rewrite pow2_xO. reflexivity.
    + rewrite IH by auto. apply Z.div_pos; [auto | lia].
  - rewrite shr_1_m by assumption. reflexivity.
Qed.

Lemma shr_record_of_loc_m (m : Z) (l : location) :
  shr_m (shr_record_of_loc m l) = m.
Proof. destruct l as [ | [ | | ]]; reflexivity. Qed.

(** Truncation to 53 bits of a mantissa that has at least 53. *)
Lemma shr_fexp_spec (m : positive) (e : Z) (l : location) :
  let d := Zpos (digits2_pos m) in
  53 <= d -> -1074 <= d + e - 53 ->
  shr_m (fst (shr_fexp prec emax (Zpos m) e l)) = Zpos m / 2 ^ (d - 53)
  /\ snd (shr_fexp prec emax (Zpos m) e l) = d + e - 53.
Proof.
  intros d Hd He. unfold shr_fexp. cbn [Zdigits2]. fold d.
  replace (fexp prec emax (d + e) - e) with (d - 53)
    by (unfold fexp, SpecFloat.emin, prec, emax; lia).
  destruct (d - 53) as [ | p | p ] eqn:E; try lia; cbn [shr fst snd].
  - rewrite shr_record_of_loc_m, Z.pow_0_r, Z.div_1_r.
    split; [reflexivity | lia].
  - rewrite iter_shr_1_m by (rewrite shr_record_of_loc_m; lia).
    rewrite shr_record_of_loc_m. split; [reflexivity | lia].
Qed.

Lemma round_nearest_even_cases (m : Z) (l : location) :
  round_nearest_even m l = m \/ round_nearest_even m l = m + 1.
Proof.
  destruct l as [ | [ | | ]]; cbn [round_nearest_even]; auto.
  destruct (Z.even m); auto.
Qed.

(** Rounding to nearest is monotone against a representable lower bound:
    a mantissa of at least 53 bits whose value [mx * 2^ex] is not below
    [mc * 2^ec] rounds to a value that is not below it either.  The two
    values are compared at the common exponent [k]. *)
Lemma binary_round_aux_at_least (mx : positive) (ex : Z) (lx : location)
      (mc ec k : Z) :
  53 <= Zpos (digits2_pos mx) ->
  2 ^ 52 <= mc -> -1074 <= ec -> k <= ec -> k <= ex ->
  mc * 2 ^ (ec - k) <= Zpos mx * 2 ^ (ex - k) ->
  at_least mc ec (binary_round_aux prec emax false (Zpos mx) ex lx).
Proof.
  intros Hd Hmc Hec Hk1 Hk2 Hle.
  pose proof (digits2_pos_bounds mx) as [Blo Bhi].
  set (d := Zpos (digits2_pos mx)) in *.
  assert (Hmag : 52 + ec < d + ex).
  { assert (E : 52 + ec - k < d + ex - k); [ | lia].
    apply (Z.pow_lt_mono_r_iff 2); [lia | lia | ].
    replace (52 + ec - k) with (52 + (ec - k)) by lia.
    replace (d + ex - k) with (d + (ex - k)) by lia.
    rewrite !Z.pow_add_r by lia.
    assert (0 < 2 ^ (ec - k)) by (apply Z.pow_pos_nonneg; lia).
    assert (0 < 2 ^ (ex - k)) by (apply Z.pow_pos_nonneg; lia).
    nia. }
  destruct (shr_fexp_spec mx ex lx) as [Hm1 He1]; fold d; try lia.
  fold d in Hm1, He1.
  unfold binary_round_aux.
  destruct (shr_fexp prec emax (Zpos mx) ex lx) as [mrs1 e1].
  cbn [fst snd] in Hm1, He1.
  set (m1 := shr_m mrs1) in *.
  assert (Hpd : 0 < 2 ^ (d - 53)) by (apply Z.pow_pos_nonneg; lia).
  assert (Hsplit : 2 ^ d = 2 ^ (d - 53) * 2 ^ 53).
  { rewrite <- Z.pow_add_r by lia. f_equal. lia. }
  assert (Hsplit' : 2 ^ (d - 1) = 2 ^ (d - 53) * 2 ^ 52).
  { rewrite <- Z.pow_add_r by lia. f_equal. lia. }
  assert (Hm1lo : 2 ^ 52 <= m1).
  { rewrite Hm1. apply Z.div_le_lower_bound; lia. }
  assert (Hm1hi : m1 < 2 ^ 53).
  { rewrite Hm1. apply Z.div_lt_upper_bound; lia. }
  set (m2 := round_nearest_even m1 (loc_of_shr_record mrs1)).
  assert (Hm2 : m1 <= m2 <= m1 + 1).
  { destruct (round_nearest_even_cases m1 (loc_of_shr_record mrs1)) as [E | E];
      fold m2 in E; lia. }
  destruct m2 as [ | q | q ] eqn:Eq2; try lia.
  pose proof (digits2_pos_bounds q) as [Qlo Qhi].
  set (dq := Zpos (digits2_pos q)) in *.
  assert (Hdq : dq = 53 \/ (dq = 54 /\ Zpos q = 2 ^ 53)).
  { destruct (Z_lt_le_dec (Zpos q) (2 ^ 53)) as [L | G].
    - left. apply digits2_pos_unique. change (53 - 1) with 52. lia.
    - right. split; [ | lia].
      apply digits2_pos_unique. change (54 - 1) with 53.
      change (2 ^ 54) with (2 * 2 ^ 53). lia. }
  destruct (shr_fexp_spec q e1 loc_Exact) as [Hm3 He3]; fold dq; try lia.
  fold dq in Hm3, He3.
  destruct (shr_fexp prec emax (Zpos q) e1 loc_Exact) as [mrs3 e3].
  cbn [fst snd] in Hm3, He3.
  assert (Hm3' : 2 ^ 52 <= shr_m mrs3 < 2 ^ 53
                 /\ (dq = 53 -> shr_m mrs3 = Zpos q)).
  { rewrite Hm3. destruct Hdq as [E | [E E']]; rewrite E.
    - rewrite E in Qlo, Qhi. change (53 - 1) with 52 in Qlo.
      change (2 ^ (53 - 53)) with 1. rewrite Z.div_1_r. split; [lia | auto].
    - rewrite E'.
      split; [vm_compute; split; [discriminate | reflexivity] | lia]. }
  destruct Hm3' as [[Hlo3 Hhi3] Hsame].
  destruct (shr_m mrs3) as [ | m | m ] eqn:Em3; try lia.
  destruct (e3 <=? emax - prec); [ | left; reflexivity].
  right. exists m, e3. split; [reflexivity | ]. split.
  - apply digits2_pos_unique. change (53 - 1) with 52. lia.
  - destruct (Z_lt_le_dec ec e3) as [L | G]; [left; assumption | right].
    assert (Hdq53 : dq = 53) by lia. assert (e3 = ec) by lia.
    split; [assumption | ].
    rewrite (Hsame Hdq53).
    assert (mc <= m1); [ | lia].
    rewrite Hm1. apply Z.div_le_lower_bound; [lia | ].
    replace (ec - k) with ((d - 53) + (ex - k)) in Hle by lia.
    rewrite Z.pow_add_r in Hle by lia.
    assert (0 < 2 ^ (ex - k)) by (apply Z.pow_pos_nonneg; lia).
    nia.
Qed.

Lemma pos_iter_xO (p d : positive) :
  Zpos (Pos.iter xO p d) = Zpos p * 2 ^ Zpos d.
Proof.
  apply (Pos.iter_ind positive xO p
           (fun d a => Zpos a = Zpos p * 2 ^ Zpos d)).
  - change (2 ^ 1) with 2. lia.
  - intros d' a IH. rewrite Pos2Z.inj_succ, Z.pow_succ_r by lia. lia.
Qed.

Lemma lit_five : lit 5 1 = five.
Proof. reflexivity. Qed.

Lemma lit_one : lit 1 1 = one.
Proof. reflexivity. Qed.

(** [float(n)] is at least 5.0 for an integer [n] that is at least 5. *)
Lemma of_int_at_least (n : Z) :
  5 <= n -> at_least 5629499534213120 (-50) (of_int n).
Proof.
  intros Hn. destruct n as [ | p | p ]; try lia.
  unfold of_int, binary_normalize, binary_round.
  pose proof (digits2_pos_bounds p) as [Blo Bhi].
  set (d := Zpos (digits2_pos p)) in *.
  assert (Hd3 : 3 <= d).
  { destruct (Z_lt_le_dec d 3) as [L | G]; [ | assumption].
    assert (2 ^ d <= 2 ^ 2) by (apply Z.pow_le_mono_r; lia).
    change (2 ^ 2) with 4 in *. lia. }
  replace (fexp prec emax (d + 0)) with (d - 53)
    by (unfold fexp, SpecFloat.emin, prec, emax; lia).
  unfold shl_align.
  replace (d - 53 - 0) with (d - 53) by lia.
  destruct (d - 53) as [ | s | s ] eqn:Es.
  - apply binary_round_aux_at_least with (k := -50); fold d; lia.
  - apply binary_round_aux_at_least with (k := -50); fold d; lia.
  - assert (Hmz : Zpos (Pos.iter xO p s) = Zpos p * 2 ^ (53 - d)).
    { rewrite pos_iter_xO. f_equal. f_equal. lia. }
    assert (Hp53 : 0 < 2 ^ (53 - d)) by (apply Z.pow_pos_nonneg; lia).
    assert (Hs1 : 2 ^ 52 = 2 ^ (d - 1) * 2 ^ (53 - d)).
    { rewrite <- Z.pow_add_r by lia. f_equal. lia. }
    assert (Hs2 : 2 ^ 53 = 2 ^ d * 2 ^ (53 - d)).
    { rewrite <- Z.pow_add_r by lia. f_equal. lia. }
    assert (Hdz : Zpos (digits2_pos (Pos.iter xO p s)) = 53).
    { apply digits2_pos_unique. change (53 - 1) with 52. rewrite Hmz. nia. }
    apply binary_round_aux_at_least with (k := -50); try lia.
    change (2 ^ (-50 - -50)) with 1. rewrite Hmz.
    replace (Z.neg s - -50) with (d - 3) by lia.
    assert (Hs3 : 2 ^ 50 = 2 ^ (53 - d) * 2 ^ (d - 3)).
    { rewrite <- Z.pow_add_r by lia. f_equal. lia. }
    assert (5 * 2 ^ 50 <= Zpos p * 2 ^ (53 - d) * 2 ^ (d - 3)); [ | lia].
    rewrite <- Z.mul_assoc, <- Hs3. lia.
Qed.

(** The quotient by 5.0 of a value that is at least 5.0 is at least 1.0. *)
Lemma div_five_at_least (x : float) :
  at_least 5629499534213120 (-50) x ->
  at_least 4503599627370496 (-52) (div x five).
Proof.
  intros [-> | (m & e & -> & Hd & He)]; [left; reflexivity | ].
  pose proof (digits2_pos_bounds m) as [Blo Bhi]. rewrite Hd in Blo, Bhi.
  change (53 - 1) with 52 in Blo.
  unfold div, five, SFdiv, SFdiv_core_binary. cbn [xorb Zdigits2].
  rewrite Hd. change (Zpos (digits2_pos 5629499534213120)) with 53.
  replace (Z.min (fexp prec emax (53 + e - (53 + -50))) (e - -50))
    with (e - 3)
    by (unfold fexp, SpecFloat.emin, prec, emax; lia).
  replace (e - -50 - (e - 3)) with 53 by lia.
  rewrite Z.shiftl_mul_pow2 by lia.
  set (c := 5629499534213120) in *.
  assert (Hq : Z.div_eucl (Zpos m * 2 ^ 53) c
               = ((Zpos m * 2 ^ 53) / c, (Zpos m * 2 ^ 53) mod c)).
  { unfold Z.div, Z.modulo.
    destruct (Z.div_eucl (Zpos m * 2 ^ 53) c); reflexivity. }
  rewrite Hq.
  assert (Hq52 : 2 ^ 52 <= Zpos m * 2 ^ 53 / c).
  { apply Z.div_le_lower_bound; unfold c; lia. }
  assert (Hq53 : c <= Zpos m -> 2 ^ 53 <= Zpos m * 2 ^ 53 / c).
  { intros Hc. apply Z.div_le_lower_bound; unfold c in *; lia. }
  destruct (Zpos m * 2 ^ 53 / c) as [ | q | q ] eqn:Eq; try lia.
  pose proof (digits2_pos_bounds q) as [Qlo Qhi].
  assert (Hdq : 53 <= Zpos (digits2_pos q)).
  { destruct (Z_lt_le_dec (Zpos (digits2_pos q)) 53) as [L | G];
      [ | assumption].
    assert (2 ^ Zpos (digits2_pos q) <= 2 ^ 52)
      by (apply Z.pow_le_mono_r; lia).
    lia. }
  destruct He as [He | [He Hm]].
  - assert (1 <= 2 ^ (e - 3 - -52)) by (apply (Z.pow_le_mono_r 2 0); lia).
    apply binary_round_aux_at_least with (k := -52); try lia.
  - subst e. specialize (Hq53 Hm).
    apply binary_round_aux_at_least with (k := -53); try lia.
Qed.

(** [min(x, 1.0)] is 1.0 for a value that is at least 1.0. *)
Lemma py_min_one (x : float) :
  at_least 4503599627370496 (-52) x -> py_min x one = one.
Proof.
  intros [-> | (m & e & -> & Hd & He)]; [reflexivity | ].
  unfold py_min, ltb, SFltb, one, SFcompare.
  destruct He as [He | [-> Hm]].
  - apply Z.compare_lt_iff in He. rewrite He. reflexivity.
  - rewrite Z.compare_refl, Pos.compare_cont_spec. cbn [Pos.switch_Eq].
    rewrite (Pos2Z.inj_compare 4503599627370496 m).
    destruct (Z.compare_spec 4503599627370496 (Zpos m)) as [E | L | G].
    + injection E as <-. reflexivity.
    + reflexivity.
    + exfalso. apply (Z.lt_irrefl (Zpos m)).
      eapply Z.lt_le_trans; eassumption.
Qed.

(** The mathematical minimum agrees. *)
Lemma fmin_one (x : float) :
  at_least 4503599627370496 (-52) x -> fmin x one = one.
Proof.
  intros [-> | (m & e & -> & Hd & He)]; [reflexivity | ].
  unfold fmin, leb, SFleb, one, SFcompare.
  destruct He as [He | [-> Hm]].
  - apply Z.compare_gt_iff in He. rewrite He. reflexivity.
  - rewrite Z.compare_refl, Pos.compare_cont_spec. cbn [Pos.switch_Eq].
    rewrite (Pos2Z.inj_compare m 4503599627370496).
    destruct (Z.compare_spec (Zpos m) 4503599627370496) as [E | L | G].
    + injection E as ->. reflexivity.
    + exfalso. apply (Z.lt_irrefl (Zpos m)).
      eapply Z.lt_le_trans; eassumption.
    + reflexivity.
Qed.

(** The scaled match count saturates at five matches. *)
Lemma raw_saturates (n : nat) :
  (5 <= n)%nat ->
  py_min (div (of_int (Z.of_nat n)) (lit 5 1)) (lit 1 1) = lit 1 1.
Proof.
  intros Hn. rewrite lit_five, lit_one.
  apply py_min_one, div_five_at_least, of_int_at_least. lia.
Qed.

Lemma raw_spec_saturates (n : nat) :
  (5 <= n)%nat ->
  fmin (div (of_int (Z.of_nat n)) (lit 5 1)) (lit 1 1) = lit 1 1.
Proof.
  intros Hn. rewrite lit_five, lit_one.
  apply fmin_one, div_five_at_least, of_int_at_least. lia.
Qed.

End PyFloatFacts.

(* ------------------------------------------------------------------ *)
(** ** Facts on the confidence estimator *)
(* ------------------------------------------------------------------ *)

Module ConfidenceFacts.

Import PyFloat NlpEngine Spec PyFloatFacts.

(** The estimator only looks at the total number of matches and at
    whether the category is "Other". *)
Lemma calculate_confidence_hundredths
      (matched_keywords urgency_keywords : list string) (category : string) :
  calculate_confidence matched_keywords urgency_keywords category
  = lit (confidence_hundredths
           (List.length matched_keywords + List.length urgency_keywords)
           (String.eqb category "Other")) 100.
Proof.
  unfold calculate_confidence.
  set (n := (List.length matched_keywords + List.length urgency_keywords)%nat).
  destruct (Nat.le_gt_cases 5 n) as [Hge | Hlt].
  - rewrite (raw_saturates n Hge).
    destruct n as [ | [ | [ | [ | [ | n]]]]]; try lia.
    cbn [Nat.eqb confidence_hundredths].
    destruct (String.eqb category "Other"); vm_compute; reflexivity.
  - destruct n as [ | [ | [ | [ | [ | n]]]]]; try lia;
      destruct (String.eqb category "Other"); vm_compute; reflexivity.
Qed.

Lemma confidence_spec_hundredths (n : nat) (category : string) :
  confidence_spec n category
  = lit (confidence_hundredths n (String.eqb category "Other")) 100.
Proof.
  unfold confidence_spec.
  destruct (Nat.le_gt_cases 5 n) as [Hge | Hlt].
  - rewrite (raw_spec_saturates n Hge).
    destruct n as [ | [ | [ | [ | [ | n]]]]]; try lia.
    cbn [Nat.eqb confidence_hundredths].
    destruct (String.eqb category "Other"); vm_compute; reflexivity.
  - destruct n as [ | [ | [ | [ | [ | n]]]]]; try lia;
      destruct (String.eqb category "Other"); vm_compute; reflexivity.
Qed.

Lemma confidence_hundredths_range (n : nat) (other : bool) :
  (30 <= confidence_hundredths n other <= 100)%positive.
Proof.
  destruct n as [ | [ | [ | [ | [ | n]]]]]; destruct other; cbn; lia.
Qed.

Lemma confidence_hundredths_mono (n1 n2 : nat) (other : bool) :
  (n1 <= n2)%nat ->
  (confidence_hundredths n1 other <= confidence_hundredths n2 other)%positive.
Proof.
  intros H.
  destruct n1 as [ | [ | [ | [ | [ | n1]]]]];
  destruct n2 as [ | [ | [ | [ | [ | n2]]]]]; try lia;
  destruct other; cbn; lia.
Qed.

Lemma confidence_hundredths_scores (n : nat) (other : bool) :
  In (confidence_hundredths n other) SCORES.
Proof.
  destruct n as [ | [ | [ | [ | [ | n]]]]]; destruct other; cbn; tauto.
Qed.

Lemma lit_hundredths_mono (k1 k2 : positive) :
  In k1 SCORES -> In k2 SCORES -> (k1 <= k2)%positive ->
  leb (lit k1 100) (lit k2 100) = true.
Proof.
  intros H1 H2 Hle. cbn [In SCORES] in H1, H2.
  repeat (destruct H1 as [<- | H1]); try contradiction;
  repeat (destruct H2 as [<- | H2]); try contradiction;
  try (vm_compute; reflexivity); exfalso; revert Hle; vm_compute; congruence.
Qed.

Lemma lit_hundredths_fixed (k : positive) :
  In k SCORES -> round2 (lit k 100) = lit k 100.
Proof.
  intros H. cbn [In SCORES] in H.
  repeat (destruct H as [<- | H]); try contradiction; vm_compute; reflexivity.
Qed.

End ConfidenceFacts.

(* ------------------------------------------------------------------ *)
(** ** Facts on the keyword tables and the pipeline stages *)
(* ------------------------------------------------------------------ *)

Module EngineFacts.

Import PyStr NlpEngine Spec.

Lemma list_in_true_iff (x : string) (l : list string) :
  list_in x l = true <-> In x l.
Proof.
  unfold list_in. rewrite existsb_exists. split.
  - intros (y & Hy & E). apply String.eqb_eq in E. subst. assumption.
  - intros H. exists x. split; [assumption | apply String.eqb_refl].
Qed.

Lemma list_in_false_iff (x : string) (l : list string) :
  list_in x l = false <-> ~ In x l.
Proof.
  rewrite <- list_in_true_iff. destruct (list_in x l); split; congruence.
Qed.

Lemma list_in_app (x : string) (l1 l2 : list string) :
  list_in x (l1 ++ l2) = list_in x l1 || list_in x l2.
Proof. apply existsb_app. Qed.

Lemma nodupb_NoDup (l : list string) : nodupb l = true -> NoDup l.
Proof.
  induction l as [ | x r IH]; cbn [nodupb]; intros H.
  - constructor.
  - apply andb_prop in H. destruct H as [Hx Hr].
    constructor; [ | auto].
    apply list_in_false_iff.
    destruct (list_in x r); [discriminate | reflexivity].
Qed.

(** [dict.fromkeys] leaves a duplicate-free list as it is. *)
Lemma fromkeys_aux_NoDup (l : list string) : forall seen,
  NoDup l -> (forall x, In x l -> ~ In x seen) -> fromkeys_aux seen l = l.
Proof.
  induction l as [ | x r IH]; intros seen Hnd Hdis; [reflexivity | ].
  cbn [fromkeys_aux]. inversion Hnd as [ | ? ? Hx Hr]; subst.
  assert (E : list_in x seen = false).
  { apply list_in_false_iff, Hdis. left. reflexivity. }
  rewrite E. f_equal. apply IH; [assumption | ].
  intros y Hy [<- | Hs]; [contradiction | ].
  apply (Hdis y); [right; assumption | assumption].
Qed.

Lemma fromkeys_NoDup (l : list string) : NoDup l -> fromkeys l = l.
Proof. intros H. apply fromkeys_aux_NoDup; [assumption | intros x _ []]. Qed.

Lemma matching_In (x : string) (kws : list string) (normalized : string) :
  In x (matching kws normalized) <-> In x kws /\ str_in x normalized = true.
Proof. unfold matching. rewrite filter_In. reflexivity. Qed.

Lemma matching_app (k1 k2 : list string) (normalized : string) :
  matching (k1 ++ k2) normalized
  = matching k1 normalized ++ matching k2 normalized.
Proof. apply filter_app. Qed.

Lemma hits_pos (kw : string) (kws : list string) (normalized : string) :
  In kw kws -> str_in kw normalized = true -> (0 < hits kws normalized)%nat.
Proof.
  intros Hin Hs. unfold hits.
  assert (H : In kw (matching kws normalized)) by (apply matching_In; auto).
  destruct (matching kws normalized); [destruct H | cbn; lia].
Qed.

Lemma any_in_true_iff (kws : list string) (normalized : string) :
  any_in kws normalized = true
  <-> exists kw, In kw kws /\ str_in kw normalized = true.
Proof. apply existsb_exists. Qed.

(** Every category list is duplicate-free and shares no keyword with the
    urgency list. *)
Lemma keywords_disjoint (c : string) (kws : list string) :
  In (c, kws) CATEGORY_KEYWORDS -> NoDup (kws ++ URGENCY_KEYWORDS).
Proof.
  intros H. apply nodupb_NoDup. cbn [In CATEGORY_KEYWORDS] in H.
  repeat (destruct H as [H | H];
          [injection H as <- <-; vm_compute; reflexivity | ]).
  destruct H.
Qed.

Lemma keywords_of_entry (c : string) (kws : list string) :
  In (c, kws) CATEGORY_KEYWORDS ->
  keywords_of c = kws /\ In c CATEGORIES /\ c <> "Other".
Proof.
  intros H. cbn [In CATEGORY_KEYWORDS] in H.
  repeat (destruct H as [H | H];
          [injection H as <- <-; repeat split; cbn; try tauto;
           discriminate | ]).
  destruct H.
Qed.

Ltac split_at i :=
  match i with
  | 0%nat => exists (firstn 0 CATEGORY_KEYWORDS), (skipn 1 CATEGORY_KEYWORDS)
  | 1%nat => exists (firstn 1 CATEGORY_KEYWORDS), (skipn 2 CATEGORY_KEYWORDS)
  | 2%nat => exists (firstn 2 CATEGORY_KEYWORDS), (skipn 3 CATEGORY_KEYWORDS)
  | 3%nat => exists (firstn 3 CATEGORY_KEYWORDS), (skipn 4 CATEGORY_KEYWORDS)
  end.

(** The scorer either finds no keyword at all, or returns the first entry
    of the table with the greatest number of matches. *)
Lemma classify_category_cases (text : string) :
  let normalized := _normalize text in
  ((forall c kws, In (c, kws) CATEGORY_KEYWORDS -> hits kws normalized = 0%nat)
   /\ classify_category text = ("Other", []))
  \/
  (exists c kws, first_best normalized c kws /\
                 classify_category text = (c, matching kws normalized)).
Proof.
  intros normalized. unfold classify_category. fold normalized.
  cbv [fill_scores CATEGORY_KEYWORDS fold_left].
  match goal with |- context [matching ?k normalized] =>
    match k with ("payment" :: _) => set (kB := k) in * end end.
  match goal with |- context [matching ?k normalized] =>
    match k with ("error" :: _) => set (kT := k) in * end end.
  match goal with |- context [matching ?k normalized] =>
    match k with ("login" :: _) => set (kA := k) in * end end.
  match goal with |- context [matching ?k normalized] =>
    match k with ("request" :: _) => set (kF := k) in * end end.
  unfold first_best, hits.
  destruct (matching kB normalized) as [ | b lb] eqn:EB;
  destruct (matching kT normalized) as [ | t lt] eqn:ET;
  destruct (matching kA normalized) as [ | a la] eqn:EA;
  destruct (matching kF normalized) as [ | f lf] eqn:EF.
  all: cbn -[Nat.ltb matching].
  all: repeat match goal with
         | |- context [(S (List.length ?x) <? S (List.length ?y))%nat] =>
             destruct (Nat.ltb_spec (S (List.length x)) (S (List.length y)));
             cbn -[Nat.ltb matching]
         end.
  all: try (left; split; [ | reflexivity];
            intros c kws [E | [E | [E | [E | []]]]];
            apply pair_equal_spec in E; destruct E as [_ <-];
            rewrite ?EB, ?ET, ?EA, ?EF; reflexivity).
  all: right.
  all: first
         [ exists "Billing", kB; split;
           [split_at 0%nat | rewrite EB; reflexivity]
         | exists "Technical", kT; split;
           [split_at 1%nat | rewrite ET; reflexivity]
         | exists "Account", kA; split;
           [split_at 2%nat | rewrite EA; reflexivity]
         | exists "Feature", kF; split;
           [split_at 3%nat | rewrite EF; reflexivity] ].
  all: cbn [firstn skipn CATEGORY_KEYWORDS app].
  all: (split; [reflexivity | ]).
  all: rewrite ?EB, ?ET, ?EA, ?EF; cbn [List.length].
  all: (split; [lia | ]).
  all: split; intros c' kws' HIn; cbn [In] in HIn;
       repeat match type of HIn with
              | _ \/ _ => destruct HIn as [HIn | HIn]
              | False => destruct HIn
              | (_, _) = (_, _) =>
                  apply pair_equal_spec in HIn; destruct HIn as [_ <-]
              end;
       fold kB kT kA kF; rewrite ?EB, ?ET, ?EA, ?EF; cbn [List.length]; lia.
Qed.

Lemma first_best_In (normalized c : string) (kws : list string) :
  first_best normalized c kws -> In (c, kws) CATEGORY_KEYWORDS.
Proof.
  intros (before & after & E & _). rewrite E.
  apply in_or_app. right. left. reflexivity.
Qed.

(** The category is one of the five names, and the matched keywords are
    those of its declared list. *)
Lemma classify_category_shape (text : string) :
  let r := classify_category text in
  In (fst r) CATEGORIES /\
  snd r = matching (keywords_of (fst r)) (_normalize text) /\
  NoDup (snd r ++ matching URGENCY_KEYWORDS (_normalize text)).
Proof.
  cbv zeta.
  destruct (classify_category_cases text)
    as [[_ ->] | (c & kws & Hb & ->)]; cbn [fst snd].
  - split; [cbn; tauto | ]. split; [reflexivity | ].
    cbn [app]. apply NoDup_filter, (nodupb_NoDup URGENCY_KEYWORDS).
    vm_compute. reflexivity.
  - apply first_best_In in Hb.
    destruct (keywords_of_entry c kws Hb) as (-> & Hc & _).
    split; [assumption | ]. split; [reflexivity | ].
    rewrite <- matching_app. apply NoDup_filter.
    apply (keywords_disjoint c kws Hb).
Qed.

Lemma analyze_ticket_unfold (message : string) :
  analyze_ticket message
  = _apply_custom_rules message
      {| category := fst (classify_category message);
         priority := determine_priority message
                       (fst (classify_category message))
                       (fst (detect_urgency message));
         urgency := fst (detect_urgency message);
         keywords := fromkeys (snd (classify_category message)
                               ++ snd (detect_urgency message));
         confidence := calculate_confidence
                         (snd (classify_category message))
                         (snd (detect_urgency message))
                         (fst (classify_category message)) |}.
Proof.
  unfold analyze_ticket.
  destruct (classify_category message) as [c ck].
  destruct (detect_urgency message) as [u uk]. reflexivity.
Qed.

Lemma any_in_triggers (normalized : string) :
  any_in CUSTOM_BILLING_TRIGGERS normalized
  = str_in "refund" normalized || str_in "money back" normalized.
Proof.
  cbn [any_in CUSTOM_BILLING_TRIGGERS existsb]. rewrite orb_false_r.
  reflexivity.
Qed.

Lemma determine_priority_in (text category : string) (is_urgent : bool) :
  In (determine_priority text category is_urgent) PRIORITIES.
Proof.
  unfold determine_priority.
  destruct (any_in P0_KEYWORDS _); [cbn; tauto | ].
  destruct (is_urgent || any_in P1_KEYWORDS _); [cbn; tauto | ].
  destruct (list_in category _); cbn; tauto.
Qed.

(** The override appends the triggers found in the text and missing from
    the list, in the order of the trigger table. *)
Lemma override_keywords (normalized : string) (kws : list string) :
  fold_left (append_trigger normalized) CUSTOM_BILLING_TRIGGERS kws
  = kws ++ filter (fun t => str_in t normalized && negb (list_in t kws))
                  CUSTOM_BILLING_TRIGGERS.
Proof.
  cbn [fold_left CUSTOM_BILLING_TRIGGERS filter]. unfold append_trigger.
  destruct (str_in "refund" normalized), (str_in "money back" normalized),
    (list_in "refund" kws) eqn:Er, (list_in "money back" kws) eqn:Em;
    cbn [andb negb]; rewrite ?list_in_app, ?Er, ?Em; cbn;
    rewrite ?Er, ?Em, ?app_nil_r, <- ?app_assoc; reflexivity.
Qed.

End EngineFacts.

(* ------------------------------------------------------------------ *)
(** ** Facts on the text normalizer *)
(* ------------------------------------------------------------------ *)

Module NormalizeFacts.

Import PyStr NlpEngine NormalForm.

Lemma lower_char_idem (c : ascii) : lower_char (lower_char c) = lower_char c.
Proof. destruct c as [[] [] [] [] [] [] [] []]; reflexivity. Qed.

Lemma is_space_lower_char (c : ascii) : is_space (lower_char c) = is_space c.
Proof. destruct c as [[] [] [] [] [] [] [] []]; reflexivity. Qed.

Lemma is_space_plain (c : ascii) :
  is_space c = true -> lower_char c = c.
Proof.
  destruct c as [[] [] [] [] [] [] [] []]; intros H;
    try reflexivity; discriminate.
Qed.

Lemma lower_idem (s : string) : lower (lower s) = lower s.
Proof.
  induction s as [ | c r IH]; cbn [lower]; [reflexivity | ].
  rewrite lower_char_idem, IH. reflexivity.
Qed.

Lemma lower_lstrip (s : string) : lower (lstrip s) = lstrip (lower s).
Proof.
  induction s as [ | c r IH]; cbn [lower lstrip]; [reflexivity | ].
  rewrite is_space_lower_char.
  destruct (is_space c); [assumption | reflexivity].
Qed.

Lemma lower_rstrip (s : string) : lower (rstrip s) = rstrip (lower s).
Proof.
  induction s as [ | c r IH]; cbn [lower rstrip]; [reflexivity | ].
  rewrite <- IH, is_space_lower_char.
  destruct (rstrip r) as [ | c' r']; cbn [lower].
  - destruct (is_space c); reflexivity.
  - reflexivity.
Qed.

Lemma lower_sub_spaces (s : string) : forall b,
  lower (sub_spaces b s) = sub_spaces b (lower s).
Proof.
  induction s as [ | c r IH]; intros b; cbn [lower sub_spaces];
    [reflexivity | ].
  rewrite is_space_lower_char.
  destruct (is_space c); [destruct b | ]; cbn [lower]; rewrite IH; reflexivity.
Qed.

(** Normalized text has no capital letter left. *)
Lemma lower_normalize (text : string) :
  lower (_normalize text) = _normalize text.
Proof.
  unfold _normalize, strip.
  rewrite lower_sub_spaces, lower_rstrip, lower_lstrip, lower_idem.
  reflexivity.
Qed.

Lemma lstrip_clean (s : string) : starts_clean s = true -> lstrip s = s.
Proof.
  destruct s as [ | c r]; cbn [starts_clean lstrip]; [reflexivity | ].
  destruct (is_space c); [discriminate | reflexivity].
Qed.

Lemma starts_clean_lstrip (s : string) : starts_clean (lstrip s) = true.
Proof.
  induction s as [ | c r IH]; cbn [lstrip]; [reflexivity | ].
  destruct (is_space c) eqn:E; [assumption | ].
  cbn [starts_clean]. rewrite E. reflexivity.
Qed.

Lemma rstrip_clean (s : string) : ends_clean s = true -> rstrip s = s.
Proof.
  induction s as [ | c r IH]; [reflexivity | ].
  cbn [ends_clean rstrip]. destruct r as [ | c' r'].
  - cbn [rstrip]. destruct (is_space c); [discriminate | reflexivity].
  - intros H. rewrite (IH H). reflexivity.
Qed.

Lemma ends_clean_rstrip (s : string) : ends_clean (rstrip s) = true.
Proof.
  induction s as [ | c r IH]; [reflexivity | ].
  cbn [rstrip]. destruct (rstrip r) as [ | c' r'].
  - destruct (is_space c) eqn:E; [reflexivity | ].
    cbn [ends_clean]. rewrite E. reflexivity.
  - exact IH.
Qed.

Lemma starts_clean_rstrip (s : string) :
  starts_clean s = true -> starts_clean (rstrip s) = true.
Proof.
  destruct s as [ | c r]; [reflexivity | ].
  cbn [starts_clean rstrip]. intros H.
  destruct (is_space c) eqn:E; [discriminate | ].
  destruct (rstrip r); cbn [starts_clean]; rewrite E; reflexivity.
Qed.

Lemma starts_clean_sub_spaces (s : string) (b : bool) :
  starts_clean s = true -> starts_clean (sub_spaces b s) = true.
Proof.
  destruct s as [ | c r]; [reflexivity | ].
  cbn [starts_clean sub_spaces]. intros H.
  destruct (is_space c) eqn:E; [discriminate | ].
  cbn [starts_clean]. rewrite E. reflexivity.
Qed.

(** A string that ends with a visible character keeps one after the white
    space runs are collapsed. *)
Lemma ends_clean_sub_spaces (s : string) : forall b,
  ends_clean s = true -> s <> "" ->
  ends_clean (sub_spaces b s) = true /\ sub_spaces b s <> "".
Proof.
  induction s as [ | c r IH]; intros b H Hne; [contradiction | ].
  destruct r as [ | c' r'].
  - cbn [ends_clean] in H. cbn [sub_spaces].
    destruct (is_space c) eqn:E; [discriminate | ].
    cbn [ends_clean]. rewrite E. split; [reflexivity | discriminate].
  - assert (Hr : ends_clean (String c' r') = true) by exact H.
    assert (Hn : String c' r' <> "") by discriminate.
    clear H. remember (String c' r') as r2 eqn:E2. clear E2.
    cbn [sub_spaces].
    destruct (is_space c); [destruct b | ].
    + apply (IH true Hr Hn).
    + destruct (IH true Hr Hn) as [H1 H2]. split; [ | discriminate].
      cbn [ends_clean].
      destruct (sub_spaces true r2); [contradiction | exact H1].
    + destruct (IH false Hr Hn) as [H1 H2]. split; [ | discriminate].
      cbn [ends_clean].
      destruct (sub_spaces false r2); [contradiction | exact H1].
Qed.

Lemma ends_clean_sub_spaces' (s : string) (b : bool) :
  ends_clean s = true -> ends_clean (sub_spaces b s) = true.
Proof.
  destruct s as [ | c r] eqn:E; [reflexivity | ].
  intros H. apply ends_clean_sub_spaces; [assumption | discriminate].
Qed.

Lemma no_run_sub_spaces (s : string) : forall b,
  no_run b (sub_spaces b s) = true.
Proof.
  induction s as [ | c r IH]; intros b; cbn [sub_spaces]; [reflexivity | ].
  destruct (is_space c) eqn:E; [destruct b | ].
  - apply IH.
  - cbn [no_run]. change (is_space " ") with true. cbn [negb andb]. apply IH.
  - cbn [no_run]. rewrite E. apply IH.
Qed.

Lemma plain_spaces_sub_spaces (s : string) : forall b,
  plain_spaces (sub_spaces b s) = true.
Proof.
  unfold plain_spaces.
  induction s as [ | c r IH]; intros b; cbn [sub_spaces]; [reflexivity | ].
  destruct (is_space c) eqn:E; [destruct b | ]; cbn [all_chars];
    rewrite ?IH, ?E; reflexivity.
Qed.

(** Collapsing changes nothing when there is nothing to collapse. *)
Lemma sub_spaces_fixed (s : string) : forall b,
  no_run b s = true -> plain_spaces s = true -> sub_spaces b s = s.
Proof.
  unfold plain_spaces.
  induction s as [ | c r IH]; intros b Hrun Hpl; [reflexivity | ].
  cbn [no_run all_chars sub_spaces] in *.
  apply andb_prop in Hpl. destruct Hpl as [Hc Hr].
  destruct (is_space c) eqn:E.
  - apply andb_prop in Hrun. destruct Hrun as [Hb Hrun].
    destruct b; [discriminate | ].
    cbn [negb orb] in Hc. apply Ascii.eqb_eq in Hc. subst c.
    rewrite (IH true Hrun Hr). reflexivity.
  - rewrite (IH false Hrun Hr). reflexivity.
Qed.

(** No run of white space means no two spaces in a row. *)
Lemma no_run_double_space (s : string) : forall b,
  no_run b s = true -> str_in "  " s = false.
Proof.
  induction s as [ | c r IH]; intros b H; [reflexivity | ].
  cbn [str_in]. cbn [no_run] in H.
  assert (Hr : str_in "  " r = false).
  { destruct (is_space c).
    - apply andb_prop in H. apply (IH true), H.
    - apply (IH false), H. }
  rewrite Hr, orb_false_r.
  cbn [prefix]. destruct (ascii_dec " " c) as [<- | Hc]; [ | reflexivity].
  change (is_space " ") with true in H.
  apply andb_prop in H. destruct H as [_ H].
  destruct r as [ | c' r']; [reflexivity | ].
  cbn [prefix].
  destruct (ascii_dec " " c') as [<- | Hc']; [ | reflexivity].
  cbn [no_run] in H. change (is_space " ") with true in H. discriminate.
Qed.

Lemma all_chars_In (p : ascii -> bool) (s : string) :
  all_chars p s = true
  <-> forall c, In c (list_ascii_of_string s) -> p c = true.
Proof.
  induction s as [ | a r IH]; cbn [all_chars list_ascii_of_string In].
  - split; [intros _ c [] | reflexivity].
  - rewrite andb_true_iff, IH. split.
    + intros [Ha Hr] c [<- | Hc]; auto.
    + intros H. split; [apply H; left; reflexivity | ].
      intros c Hc. apply H. right. exact Hc.
Qed.

(** The shape of normalized text. *)
Lemma normalize_shape (text : string) :
  let s := _normalize text in
  starts_clean s = true /\ ends_clean s = true /\
  no_run false s = true /\ plain_spaces s = true.
Proof.
  cbv zeta. unfold _normalize, strip. repeat split.
  - apply starts_clean_sub_spaces, starts_clean_rstrip, starts_clean_lstrip.
  - apply ends_clean_sub_spaces', ends_clean_rstrip.
  - apply no_run_sub_spaces.
  - apply plain_spaces_sub_spaces.
Qed.

Lemma normalize_fixed (s : string) :
  lower s = s -> starts_clean s = true -> ends_clean s = true ->
  no_run false s = true -> plain_spaces s = true ->
  _normalize s = s.
Proof.
  intros Hl Hs He Hr Hp. unfold _normalize, strip.
  rewrite Hl, (lstrip_clean s Hs), (rstrip_clean s He).
  apply sub_spaces_fixed; assumption.
Qed.

Lemma normalize_idem (text : string) :
  _normalize (_normalize text) = _normalize text.
Proof.
  destruct (normalize_shape text) as (Hs & He & Hr & Hp).
  apply normalize_fixed; auto using lower_normalize.
Qed.

Lemma blank_lower (s : string) : blank s = true -> blank (lower s) = true.
Proof.
  unfold blank.
  induction s as [ | c r IH]; cbn [lower all_chars]; [reflexivity | ].
  rewrite is_space_lower_char. intros H. apply andb_prop in H.
  destruct H as [-> H]. apply IH, H.
Qed.

Lemma lstrip_blank (s : string) : blank s = true -> lstrip s = "".
Proof.
  unfold blank.
  induction s as [ | c r IH]; cbn [lstrip all_chars]; [reflexivity | ].
  intros H. apply andb_prop in H. destruct H as [-> H]. apply IH, H.
Qed.

Lemma normalize_blank (text : string) :
  blank text = true -> _normalize text = "".
Proof.
  intros H. unfold _normalize, strip.
  rewrite (lstrip_blank _ (blank_lower _ H)). reflexivity.
Qed.

(** Conversely, only blank text normalizes to the empty string. *)
Lemma lstrip_empty_blank (s : string) : lstrip s = "" -> blank s = true.
Proof.
  unfold blank.
  induction s as [ | c r IH]; cbn [lstrip all_chars]; [reflexivity | ].
  destruct (is_space c); [exact IH | discriminate].
Qed.

Lemma rstrip_empty (s : string) :
  starts_clean s = true -> rstrip s = "" -> s = "".
Proof.
  destruct s as [ | c r]; [reflexivity | ].
  cbn [starts_clean rstrip]. intros H.
  destruct (rstrip r); [ | discriminate].
  destruct (is_space c); [discriminate | discriminate].
Qed.

Lemma sub_spaces_empty (s : string) :
  starts_clean s = true -> sub_spaces false s = "" -> s = "".
Proof.
  destruct s as [ | c r]; [reflexivity | ].
  cbn [starts_clean sub_spaces]. intros H.
  destruct (is_space c); discriminate.
Qed.

Lemma blank_of_lower (s : string) : blank (lower s) = true -> blank s = true.
Proof.
  unfold blank.
  induction s as [ | c r IH]; cbn [lower all_chars]; [reflexivity | ].
  rewrite is_space_lower_char. intros H. apply andb_prop in H.
  destruct H as [-> H]. apply IH, H.
Qed.

Lemma normalize_empty_blank (text : string) :
  _normalize text = "" -> blank text = true.
Proof.
  unfold _normalize, strip. intros H.
  apply sub_spaces_empty in H;
    [ | apply starts_clean_rstrip, starts_clean_lstrip].
  apply rstrip_empty in H; [ | apply starts_clean_lstrip].
  apply blank_of_lower, lstrip_empty_blank, H.
Qed.

End NormalizeFacts.

(* ------------------------------------------------------------------ *)
(** ** Further facts on the pipeline *)
(* ------------------------------------------------------------------ *)

Module PipelineFacts.

Import PyStr NlpEngine Spec NormalForm EngineFacts ConfidenceFacts
       NormalizeFacts.

(** Every stage reads the message through [_normalize] only. *)
Lemma classify_category_ext (a b : string) :
  _normalize a = _normalize b -> classify_category a = classify_category b.
Proof. intros H. unfold classify_category. rewrite H. reflexivity. Qed.

Lemma detect_urgency_ext (a b : string) :
  _normalize a = _normalize b -> detect_urgency a = detect_urgency b.
Proof. intros H. unfold detect_urgency. rewrite H. reflexivity. Qed.

Lemma determine_priority_ext (a b c : string) (u : bool) :
  _normalize a = _normalize b ->
  determine_priority a c u = determine_priority b c u.
Proof. intros H. unfold determine_priority. rewrite H. reflexivity. Qed.

Lemma apply_custom_rules_ext (a b : string) (res : AnalysisResult) :
  _normalize a = _normalize b ->
  _apply_custom_rules a res = _apply_custom_rules b res.
Proof. intros H. unfold _apply_custom_rules. rewrite H. reflexivity. Qed.

Lemma analyze_ticket_ext (a b : string) :
  _normalize a = _normalize b -> analyze_ticket a = analyze_ticket b.
Proof.
  intros H. unfold analyze_ticket.
  rewrite (classify_category_ext a b H), (detect_urgency_ext a b H).
  destruct (classify_category b) as [c ck].
  destruct (detect_urgency b) as [u uk].
  rewrite (determine_priority_ext a b c u H).
  apply apply_custom_rules_ext, H.
Qed.

Lemma normalize_lower (text : string) :
  _normalize (lower text) = _normalize text.
Proof. unfold _normalize. rewrite lower_idem. reflexivity. Qed.

Lemma detect_urgency_flag (text : string) :
  fst (detect_urgency text) = true
  <-> snd (detect_urgency text) <> [].
Proof.
  unfold detect_urgency. cbn [fst snd].
  destruct (matching URGENCY_KEYWORDS (_normalize text));
    split; intros H; try reflexivity; try discriminate.
  contradiction.
Qed.

Lemma detect_urgency_found (text kw : string) :
  In kw URGENCY_KEYWORDS -> str_in kw (_normalize text) = true ->
  fst (detect_urgency text) = true.
Proof.
  intros Hin Hs. apply detect_urgency_flag. unfold detect_urgency.
  cbn [snd]. intros E.
  assert (H : In kw (matching URGENCY_KEYWORDS (_normalize text)))
    by (apply matching_In; auto).
  rewrite E in H. destruct H.
Qed.

(** Each keyword that escalates to P1 is an urgency keyword as well. *)
Lemma p1_keywords_urgent (kw : string) :
  In kw P1_KEYWORDS -> In kw URGENCY_KEYWORDS.
Proof.
  cbn [In P1_KEYWORDS URGENCY_KEYWORDS]. intros H.
  repeat (destruct H as [<- | H]; [tauto | ]). destruct H.
Qed.

Lemma any_p1_urgent (text : string) :
  any_in P1_KEYWORDS (_normalize text) = true ->
  fst (detect_urgency text) = true.
Proof.
  intros H. apply any_in_true_iff in H. destruct H as (kw & Hin & Hs).
  apply (detect_urgency_found text kw); [ | assumption].
  apply p1_keywords_urgent, Hin.
Qed.

(** A refund trigger in the text is a Billing match, so the scorer
    returns a category with at least one keyword. *)
Lemma trigger_matched (text : string) :
  triggers_override (_normalize text) ->
  fst (classify_category text) <> "Other" /\
  snd (classify_category text) <> [].
Proof.
  intros Htrig.
  assert (Hb : In ("Billing", keywords_of "Billing") CATEGORY_KEYWORDS)
    by (left; reflexivity).
  assert (Hpos : (0 < hits (keywords_of "Billing") (_normalize text))%nat).
  { destruct Htrig as [H | H].
    - apply (hits_pos "refund"); [cbn; tauto | assumption].
    - apply (hits_pos "money back"); [cbn; tauto | assumption]. }
  destruct (classify_category_cases text)
    as [[Hnone _] | (c & kws & Hbest & ->)].
  - apply Hnone in Hb. lia.
  - cbn [fst snd].
    pose proof (first_best_In _ _ _ Hbest) as Hin.
    destruct (keywords_of_entry c kws Hin) as (_ & _ & Hne).
    destruct Hbest as (_ & _ & _ & Hhits & _). unfold hits in Hhits.
    split; [assumption | ].
    destruct (matching kws (_normalize text));
      [cbn in Hhits; lia | discriminate].
Qed.

(** The keyword list of the result, from the two match lists. *)
Lemma analyze_ticket_keywords_eq (message : string) :
  let normalized := _normalize message in
  let found := snd (classify_category message)
               ++ snd (detect_urgency message) in
  keywords (analyze_ticket message)
  = found ++ filter (fun t => str_in t normalized && negb (list_in t found))
                    CUSTOM_BILLING_TRIGGERS.
Proof.
  intros normalized found.
  destruct (classify_category_shape message) as (_ & _ & Hnd).
  rewrite analyze_ticket_unfold. unfold _apply_custom_rules.
  fold normalized.
  change (matching URGENCY_KEYWORDS (_normalize message))
    with (snd (detect_urgency message)) in Hnd.
  rewrite fromkeys_NoDup by assumption. fold found.
  destruct (any_in CUSTOM_BILLING_TRIGGERS normalized) eqn:Hany;
    cbn [keywords].
  - apply override_keywords.
  - rewrite any_in_triggers in Hany. apply orb_false_elim in Hany.
    destruct Hany as [Hr Hm].
    cbn [filter CUSTOM_BILLING_TRIGGERS]. rewrite Hr, Hm. cbn [andb].
    symmetry. apply app_nil_r.
Qed.

(** Where the scorer takes its keywords from. *)
Lemma classify_category_keywords (text kw : string) :
  In kw (snd (classify_category text)) ->
  str_in kw (_normalize text) = true /\
  exists c kws, In (c, kws) CATEGORY_KEYWORDS /\ In kw kws.
Proof.
  destruct (classify_category_cases text)
    as [[_ ->] | (c & kws & Hbest & ->)]; cbn [snd]; intros H.
  - destruct H.
  - apply matching_In in H. destruct H as [Hin Hs].
    split; [assumption | ].
    exists c, kws. split; [apply (first_best_In _ _ _ Hbest) | assumption].
Qed.

Lemma analyze_ticket_keywords_source (message kw : string) :
  In kw (keywords (analyze_ticket message)) ->
  str_in kw (_normalize message) = true /\
  (In kw URGENCY_KEYWORDS \/
   exists c kws, In (c, kws) CATEGORY_KEYWORDS /\ In kw kws).
Proof.
  rewrite analyze_ticket_keywords_eq. intros H.
  apply in_app_or in H. destruct H as [H | H];
    [apply in_app_or in H; destruct H as [H | H] | ].
  - destruct (classify_category_keywords _ _ H) as [Hs Ht]. auto.
  - unfold detect_urgency in H. cbn [snd] in H.
    apply matching_In in H. destruct H as [Hin Hs]. auto.
  - apply filter_In in H. destruct H as [Hin Hs].
    apply andb_prop in Hs. destruct Hs as [Hs _].
    split; [assumption | right].
    exists "Billing", (keywords_of "Billing").
    split; [left; reflexivity | ].
    cbn [In CUSTOM_BILLING_TRIGGERS] in Hin.
    destruct Hin as [<- | [<- | []]]; cbn; tauto.
Qed.

(** No keyword of the tables is empty or contains a comma. *)
Lemma table_keywords_plain (kw : string) :
  (In kw URGENCY_KEYWORDS \/
   exists c kws, In (c, kws) CATEGORY_KEYWORDS /\ In kw kws) ->
  kw <> "" /\ str_in "," kw = false.
Proof.
  assert (Hall : forall l,
            forallb (fun k => negb (String.eqb k "") && negb (str_in "," k)) l
            = true ->
            forall k, In k l -> k <> "" /\ str_in "," k = false).
  { intros l Hl k Hk. rewrite forallb_forall in Hl. specialize (Hl k Hk).
    apply andb_prop in Hl. destruct Hl as [H1 H2].
    split.
    - intros ->. discriminate.
    - destruct (str_in "," k); [discriminate | reflexivity]. }
  intros [H | (c & kws & Hin & H)].
  - apply (Hall URGENCY_KEYWORDS); [vm_compute; reflexivity | assumption].
  - apply (Hall kws); [ | assumption].
    cbn [In CATEGORY_KEYWORDS] in Hin.
    repeat (destruct Hin as [Hin | Hin];
            [injection Hin as <- <-; vm_compute; reflexivity | ]).
    destruct Hin.
Qed.

Lemma confidence_hundredths_boost (n : nat) :
  (confidence_hundredths n true <= confidence_hundredths n false)%positive /\
  ((0 < n)%nat ->
   (confidence_hundredths n true < confidence_hundredths n false)%positive).
Proof.
  destruct n as [ | [ | [ | [ | [ | n]]]]]; cbn; split; intros; lia.
Qed.

Lemma lit_hundredths_lt (k1 k2 : positive) :
  In k1 SCORES -> In k2 SCORES -> (k1 < k2)%positive ->
  PyFloat.ltb (PyFloat.lit k1 100) (PyFloat.lit k2 100) = true.
Proof.
  intros H1 H2 Hlt. cbn [In SCORES] in H1, H2.
  repeat (destruct H1 as [<- | H1]); try contradiction;
  repeat (destruct H2 as [<- | H2]); try contradiction;
  try (vm_compute; reflexivity); exfalso; revert Hlt; vm_compute; congruence.
Qed.

Lemma lit_hundredths_floor (k : positive) :
  In k SCORES -> PyFloat.lit k 100 = PyFloat.lit 3 10 -> k = 30%positive.
Proof.
  intros H. cbn [In SCORES] in H.
  repeat (destruct H as [<- | H]); try contradiction;
    try reflexivity; vm_compute; discriminate.
Qed.

Lemma confidence_hundredths_floor (n : nat) (other : bool) :
  confidence_hundredths n other = 30%positive -> n = 0%nat.
Proof.
  destruct n as [ | [ | [ | [ | [ | n]]]]]; destruct other; cbn;
    intros H; try reflexivity; discriminate.
Qed.

Lemma apply_custom_rules_confidence (text : string) (res : AnalysisResult) :
  confidence (_apply_custom_rules text res) = confidence res.
Proof. unfold _apply_custom_rules. destruct (any_in _ _); reflexivity. Qed.

Import TicketService.

Lemma str_in_comma_cons (c : ascii) (r : string) :
  str_in "," (String c r) = Ascii.eqb c ","%char || str_in "," r.
Proof.
  cbn [str_in prefix].
  destruct (ascii_dec "," c) as [<- | Hne].
  - destruct r; reflexivity.
  - apply not_eq_sym in Hne. apply Ascii.eqb_neq in Hne. rewrite Hne.
    reflexivity.
Qed.

(** A piece without comma followed by a comma is split off whole. *)
Lemma split_app (s rest : string) :
  str_in "," s = false ->
  split ","%char (s ++ String ","%char rest)%string
  = s :: split ","%char rest.
Proof.
  induction s as [ | c r IH]; intros H.
  - reflexivity.
  - rewrite str_in_comma_cons in H. apply orb_false_elim in H.
    destruct H as [Hc Hr].
    cbn [append split]. rewrite Hc, (IH Hr). reflexivity.
Qed.

Lemma split_plain (s : string) :
  str_in "," s = false -> split ","%char s = [s].
Proof.
  induction s as [ | c r IH]; intros H.
  - reflexivity.
  - rewrite str_in_comma_cons in H. apply orb_false_elim in H.
    destruct H as [Hc Hr].
    cbn [split]. rewrite Hc, (IH Hr). reflexivity.
Qed.

Lemma split_join (l : list string) :
  l <> [] -> (forall kw, In kw l -> str_in "," kw = false) ->
  split ","%char (join "," l) = l.
Proof.
  induction l as [ | x r IH]; intros Hne Hall; [contradiction | ].
  destruct r as [ | y r'].
  - cbn [join]. apply split_plain, Hall. left. reflexivity.
  - change (join "," (x :: y :: r'))
      with (x ++ String ","%char (join "," (y :: r')))%string.
    rewrite split_app by (apply Hall; left; reflexivity).
    f_equal. apply IH; [discriminate | ].
    intros kw Hkw. apply Hall. right. exact Hkw.
Qed.

Lemma join_nonempty (x : string) (r : list string) :
  x <> "" -> join "," (x :: r) <> "".
Proof.
  intros Hx. destruct x as [ | c x']; [contradiction | ].
  destruct r; cbn [join append]; discriminate.
Qed.

Lemma response_keywords_join (t : Ticket) (l : list string) :
  TicketService.keywords t = join "," l ->
  (forall kw, In kw l -> kw <> "" /\ str_in "," kw = false) ->
  response_keywords t = l.
Proof.
  intros Hcol Hall. unfold response_keywords. rewrite Hcol.
  destruct l as [ | x r]; [reflexivity | ].
  pose proof (join_nonempty x r (proj1 (Hall x (or_introl eq_refl)))) as Hne.
  destruct (join "," (x :: r)) as [ | c col] eqn:E; [contradiction | ].
  rewrite <- E.
  apply split_join; [discriminate | intros kw Hkw; apply Hall, Hkw].
Qed.

End PipelineFacts.

(* ------------------------------------------------------------------ *)
(** ** Properties of the analyzer *)
(* ------------------------------------------------------------------ *)

Import PyStr NlpEngine Spec EngineFacts ConfidenceFacts.

(** C1. Whenever the normalized text contains "refund" or "money back",
    [analyze_ticket] returns category "Billing"; the priority is "P0" when
    the priority resolved by the earlier stages was "P0" and "P1" in every
    other case, hence always one of the two. *)
Theorem refund_override_supremacy (message : string) :
  triggers_override (_normalize message) ->
  let provisional :=
    determine_priority message (fst (classify_category message))
                       (fst (detect_urgency message)) in
  let r := analyze_ticket message in
  category r = "Billing" /\
  priority r = (if String.eqb provisional "P0" then "P0" else "P1") /\
  (priority r = "P0" \/ priority r = "P1").
Proof.
  intros Htrig provisional r.
  assert (Hany : any_in CUSTOM_BILLING_TRIGGERS (_normalize message) = true).
  { rewrite any_in_triggers. destruct Htrig as [-> | ->];
      [reflexivity | apply orb_true_r]. }
  subst r. rewrite analyze_ticket_unfold. fold provisional.
  unfold _apply_custom_rules. rewrite Hany. cbn [category priority].
  cbn [list_in existsb]. rewrite orb_false_r.
  split; [reflexivity | ].
  destruct (String.eqb_spec provisional "P0") as [-> | Hne]; cbn [negb]; auto.
Qed.

Lemma refund_override_supremacy_witness :
  let r := analyze_ticket "I need a refund for my order" in
  category r = "Billing" /\
  priority r = "P1" /\
  (priority r = "P0" \/ priority r = "P1").
Proof.
  apply (refund_override_supremacy "I need a refund for my order").
  left. reflexivity.
Defined.

(** C2. [classify_category] returns ("Other", []) when no category keyword
    occurs in the normalized text; otherwise it returns the entry of the
    keyword table with the greatest number of matching keywords, the first
    such entry in the declaration order Billing, Technical, Account,
    Feature when several have that number, together with its matched
    keywords.  "payment invoice error" is Billing, two matches against one
    for Technical. *)
Theorem classify_category_first_max (text : string) :
  let normalized := _normalize text in
  ((forall c kws, In (c, kws) CATEGORY_KEYWORDS -> hits kws normalized = 0%nat)
   -> classify_category text = ("Other", [])) /\
  ((exists c kws,
       In (c, kws) CATEGORY_KEYWORDS /\ (0 < hits kws normalized)%nat)
   -> exists c kws, first_best normalized c kws /\
                    classify_category text = (c, matching kws normalized)) /\
  map fst CATEGORY_KEYWORDS = ["Billing"; "Technical"; "Account"; "Feature"] /\
  classify_category "payment invoice error"
  = ("Billing", ["payment"; "invoice"]) /\
  hits (keywords_of "Billing") (_normalize "payment invoice error") = 2%nat /\
  hits (keywords_of "Technical") (_normalize "payment invoice error") = 1%nat.
Proof.
  intros normalized. split; [ | split].
  - intros Hnone.
    destruct (classify_category_cases text)
      as [[_ E] | (c & kws & Hb & _)]; [assumption | ].
    pose proof (first_best_In _ _ _ Hb) as Hin.
    destruct Hb as (_ & _ & _ & Hpos & _).
    apply Hnone in Hin. fold normalized in Hpos. lia.
  - intros (c & kws & Hin & Hpos).
    destruct (classify_category_cases text) as [[Hnone _] | H];
      [ | assumption].
    apply Hnone in Hin. fold normalized in Hin. lia.
  - repeat split; vm_compute; reflexivity.
Qed.

Lemma classify_category_first_max_witness :
  classify_category "hello there, good morning" = ("Other", []) /\
  exists c kws, first_best (_normalize "error login") c kws /\
                classify_category "error login"
                = (c, matching kws (_normalize "error login")).
Proof.
  split.
  - apply (classify_category_first_max "hello there, good morning").
    intros c kws H. cbn [In CATEGORY_KEYWORDS] in H.
    repeat (destruct H as [H | H]; [injection H as <- <-; reflexivity | ]).
    destruct H.
  - apply (classify_category_first_max "error login").
    exists "Technical", (keywords_of "Technical").
    split; [right; left; reflexivity | vm_compute; lia].
Defined.

(** C3. [determine_priority] returns exactly one of "P0".."P3" by first
    match: "P0" when the normalized text contains "system down", "security
    breach", "data loss" or "outage"; else "P1" when [is_urgent] holds or
    the text contains "urgent", "critical", "immediately" or "asap"; else
    "P2" when the category is Billing, Technical or Account; else "P3".
    The category plays no part in the first two checks: with category
    "Other", a text that contains "outage" still gets "P0". *)
Theorem determine_priority_precedence
    (text category : string) (is_urgent : bool) :
  let normalized := _normalize text in
  let p0 := str_in "system down" normalized
            || str_in "security breach" normalized
            || str_in "data loss" normalized
            || str_in "outage" normalized in
  let p1 := is_urgent
            || str_in "urgent" normalized || str_in "critical" normalized
            || str_in "immediately" normalized || str_in "asap" normalized in
  let p2 := String.eqb category "Billing" || String.eqb category "Technical"
            || String.eqb category "Account" in
  determine_priority text category is_urgent
  = (if p0 then "P0" else if p1 then "P1" else if p2 then "P2" else "P3")
  /\ In (determine_priority text category is_urgent) PRIORITIES
  /\ (p0 || p1 = true ->
      forall category',
        determine_priority text category' is_urgent
        = determine_priority text category is_urgent)
  /\ (str_in "outage" normalized = true ->
      determine_priority text "Other" is_urgent = "P0").
Proof.
  intros normalized p0 p1 p2.
  assert (E : forall c,
             determine_priority text c is_urgent
             = if p0 then "P0" else if p1 then "P1"
               else if list_in c ["Billing"; "Technical"; "Account"]
                    then "P2" else "P3").
  { intros c. unfold determine_priority. fold normalized.
    cbn [any_in P0_KEYWORDS P1_KEYWORDS existsb].
    rewrite !orb_false_r.
    replace (str_in "system down" normalized
             || (str_in "security breach" normalized
                 || (str_in "data loss" normalized
                     || str_in "outage" normalized))) with p0
      by (subst p0; rewrite !orb_assoc; reflexivity).
    replace (is_urgent
             || (str_in "urgent" normalized
                 || (str_in "critical" normalized
                     || (str_in "immediately" normalized
                         || str_in "asap" normalized)))) with p1
      by (subst p1; rewrite !orb_assoc; reflexivity).
    reflexivity. }
  split; [ | split; [ | split]].
  - rewrite E. cbn [list_in existsb]. rewrite orb_false_r.
    subst p2. rewrite !orb_assoc. reflexivity.
  - apply determine_priority_in.
  - intros H c'. rewrite !E.
    destruct p0; [reflexivity | ]. destruct p1; [reflexivity | discriminate].
  - intros H. rewrite E.
    replace p0 with true; [reflexivity | ].
    subst p0. rewrite H. rewrite !orb_true_r. reflexivity.
Qed.

Lemma determine_priority_precedence_witness :
  determine_priority "there is an outage in the region" "Other" false = "P0"
  /\ forall category',
       determine_priority "please fix this" category' true
       = determine_priority "please fix this" "Technical" true.
Proof.
  split.
  - apply (determine_priority_precedence
             "there is an outage in the region" "Other" false).
    reflexivity.
  - apply (determine_priority_precedence "please fix this" "Technical" true).
    reflexivity.
Defined.

(** C4. [calculate_confidence] returns exactly 0.3 when the two keyword
    lists are empty; otherwise it returns [round(base, 2)] with
    [base = 0.5 + min(totalMatches / 5.0, 1.0) * 0.45], raised by 0.05 and
    capped at 1.0 when the category is not "Other". *)
Theorem calculate_confidence_formula
    (matched_keywords urgency_keywords : list string) (category : string) :
  let totalMatches :=
    (List.length matched_keywords + List.length urgency_keywords)%nat in
  calculate_confidence matched_keywords urgency_keywords category
  = confidence_spec totalMatches category
  /\ (totalMatches = 0%nat ->
      calculate_confidence matched_keywords urgency_keywords category
      = PyFloat.lit 3 10)
  /\ PyFloat.lit 3 10 = S754_finite false 5404319552844595 (-54).
Proof.
  intros totalMatches. split; [ | split].
  - rewrite calculate_confidence_hundredths, confidence_spec_hundredths.
    reflexivity.
  - intros H0. unfold calculate_confidence. fold totalMatches.
    rewrite H0. reflexivity.
  - reflexivity.
Qed.

Lemma calculate_confidence_formula_witness :
  calculate_confidence [] [] "Other" = PyFloat.lit 3 10.
Proof.
  exact (proj1 (proj2 (calculate_confidence_formula [] [] "Other")) eq_refl).
Defined.

(** C5. For every message the result of [analyze_ticket] has a confidence
    between 0.3 and 1.0 that is a two-decimal number (the float nearest to
    some k/100, which [round(_, 2)] leaves unchanged), a category among the
    five category names and a priority among the four tiers. *)
Theorem analyze_ticket_ranges (message : string) :
  let r := analyze_ticket message in
  PyFloat.leb (PyFloat.lit 3 10) (confidence r) = true /\
  PyFloat.leb (confidence r) (PyFloat.lit 1 1) = true /\
  (exists k : positive, (30 <= k <= 100)%positive /\
                        confidence r = PyFloat.lit k 100) /\
  PyFloat.round2 (confidence r) = confidence r /\
  In (category r) CATEGORIES /\
  In (priority r) PRIORITIES.
Proof.
  intros r. subst r. rewrite analyze_ticket_unfold.
  set (c := fst (classify_category message)).
  set (ck := snd (classify_category message)).
  set (uk := snd (detect_urgency message)).
  set (u := fst (detect_urgency message)).
  assert (Hc : In c CATEGORIES) by apply (classify_category_shape message).
  pose proof (determine_priority_in message c u) as Hp.
  assert (Hconf : forall res,
            confidence (_apply_custom_rules message res) = confidence res).
  { intros res. unfold _apply_custom_rules.
    destruct (any_in _ _); reflexivity. }
  rewrite Hconf. cbn [confidence].
  rewrite calculate_confidence_hundredths.
  set (k := confidence_hundredths _ _).
  pose proof (confidence_hundredths_scores
                (List.length ck + List.length uk) (String.eqb c "Other"))
    as Hk.
  pose proof (confidence_hundredths_range
                (List.length ck + List.length uk) (String.eqb c "Other"))
    as Hr.
  fold k in Hk, Hr.
  split; [ | split; [ | split; [ | split; [ | split]]]].
  - change (PyFloat.lit 3 10) with (PyFloat.lit 30 100).
    apply lit_hundredths_mono; [cbn; tauto | assumption | apply Hr].
  - change (PyFloat.lit 1 1) with (PyFloat.lit 100 100).
    apply lit_hundredths_mono; [assumption | cbn; tauto | apply Hr].
  - exists k. split; [assumption | reflexivity].
  - apply lit_hundredths_fixed. assumption.
  - unfold _apply_custom_rules. destruct (any_in _ _); cbn [category].
    + cbn. tauto.
    + assumption.
  - unfold _apply_custom_rules. destruct (any_in _ _); cbn [priority].
    + destruct (negb _); [cbn; tauto | assumption].
    + assumption.
Qed.

(** C6. For a fixed category the confidence never decreases when the
    total number of matched keywords grows. *)
Theorem calculate_confidence_monotone
    (category : string) (m1 u1 m2 u2 : list string) :
  (List.length m1 + List.length u1 <= List.length m2 + List.length u2)%nat ->
  PyFloat.leb (calculate_confidence m1 u1 category)
              (calculate_confidence m2 u2 category) = true.
Proof.
  intros Hle. rewrite !calculate_confidence_hundredths.
  apply lit_hundredths_mono.
  - apply confidence_hundredths_scores.
  - apply confidence_hundredths_scores.
  - apply confidence_hundredths_mono. assumption.
Qed.

Lemma calculate_confidence_monotone_witness :
  PyFloat.leb
    (calculate_confidence ["payment"] [] "Billing")
    (calculate_confidence ["payment"; "invoice"; "charge"] ["urgent"] "Billing")
  = true.
Proof.
  apply (calculate_confidence_monotone "Billing").
  cbn [List.length Nat.add]. lia.
Defined.

(** C7. The keywords of the result are duplicate-free and come in this
    order: the matched keywords of the winning category in the order of
    its declared list, then the matched urgency keywords in the order of
    the urgency list, then the override triggers ("refund", "money back")
    that occur in the normalized text and are not in the list yet. *)
Theorem analyze_ticket_keywords_order (message : string) :
  let normalized := _normalize message in
  let winner := fst (classify_category message) in
  let found := matching (keywords_of winner) normalized
               ++ matching URGENCY_KEYWORDS normalized in
  keywords (analyze_ticket message)
  = found ++ filter (fun t => str_in t normalized && negb (list_in t found))
                    ["refund"; "money back"]
  /\ NoDup (keywords (analyze_ticket message)).
Proof.
  intros normalized winner found.
  destruct (classify_category_shape message) as (_ & Hsnd & Hnd).
  fold normalized winner in Hsnd, Hnd.
  assert (Hkw : keywords (analyze_ticket message)
                = found ++ filter
                    (fun t => str_in t normalized && negb (list_in t found))
                    CUSTOM_BILLING_TRIGGERS).
  { rewrite analyze_ticket_unfold. unfold _apply_custom_rules.
    fold normalized.
    replace (snd (detect_urgency message))
      with (matching URGENCY_KEYWORDS normalized) by reflexivity.
    rewrite fromkeys_NoDup by assumption.
    rewrite Hsnd. fold found.
    destruct (any_in CUSTOM_BILLING_TRIGGERS normalized) eqn:Hany;
      cbn [keywords].
    - apply override_keywords.
    - rewrite any_in_triggers in Hany. apply orb_false_elim in Hany.
      destruct Hany as [Hr Hm].
      cbn [filter CUSTOM_BILLING_TRIGGERS]. rewrite Hr, Hm. cbn [andb].
      symmetry. apply app_nil_r. }
  split; [exact Hkw | ].
  rewrite Hkw. rewrite Hsnd in Hnd. fold found in Hnd.
  cbn [filter CUSTOM_BILLING_TRIGGERS].
  destruct (str_in "refund" normalized), (str_in "money back" normalized),
    (list_in "refund" found) eqn:Er, (list_in "money back" found) eqn:Em;
    cbn [andb negb]; rewrite ?app_nil_r; try assumption.
  all: apply list_in_false_iff in Er || idtac.
  all: apply list_in_false_iff in Em || idtac.
  all: apply NoDup_app; [assumption | | ].
  all: match goal with
       | |- NoDup _ =>
           repeat constructor; cbn [In];
           first [tauto | intros [E | []]; discriminate]
       | |- _ =>
           intros x Hx Hx'; cbn [In] in Hx';
           repeat (destruct Hx' as [<- | Hx']); contradiction
       end.
Qed.

(** C8. The override leaves urgency and confidence alone: in the final
    result both are the values computed before the override, the
    confidence from the category and the match lists of the scorer, also
    when the override replaces that category by "Billing". *)
Theorem override_keeps_urgency_confidence (message : string) :
  let r := analyze_ticket message in
  urgency r = fst (detect_urgency message) /\
  confidence r = calculate_confidence (snd (classify_category message))
                                      (snd (detect_urgency message))
                                      (fst (classify_category message)) /\
  (forall text provisional,
      urgency (_apply_custom_rules text provisional) = urgency provisional /\
      confidence (_apply_custom_rules text provisional)
      = confidence provisional) /\
  (let forced := analyze_ticket "refund error bug" in
   fst (classify_category "refund error bug") = "Technical" /\
   category forced = "Billing" /\
   confidence forced
   = calculate_confidence ["error"; "bug"] [] "Technical").
Proof.
  assert (Hframe : forall text provisional,
      urgency (_apply_custom_rules text provisional) = urgency provisional /\
      confidence (_apply_custom_rules text provisional)
      = confidence provisional).
  { intros text provisional. unfold _apply_custom_rules.
    destruct (any_in _ _); split; reflexivity. }
  intros r. subst r. rewrite analyze_ticket_unfold.
  split; [ | split; [ | split]].
  - rewrite (proj1 (Hframe _ _)). reflexivity.
  - rewrite (proj2 (Hframe _ _)). reflexivity.
  - exact Hframe.
  - repeat split; vm_compute; reflexivity.
Qed.

(** C9. With [is_urgent] true [determine_priority] returns "P0" or "P1",
    whatever the text and the category; so a result of [analyze_ticket]
    whose urgency is true has priority "P0" or "P1". *)
Theorem urgent_priority_high :
  (forall text category,
      determine_priority text category true = "P0" \/
      determine_priority text category true = "P1") /\
  (forall message,
      urgency (analyze_ticket message) = true ->
      priority (analyze_ticket message) = "P0" \/
      priority (analyze_ticket message) = "P1").
Proof.
  assert (Hdp : forall text category,
      determine_priority text category true = "P0" \/
      determine_priority text category true = "P1").
  { intros text category. unfold determine_priority.
    destruct (any_in P0_KEYWORDS _); [left; reflexivity | ].
    cbn [orb]. right. reflexivity. }
  split; [exact Hdp | ].
  intros message. rewrite analyze_ticket_unfold.
  unfold _apply_custom_rules.
  destruct (any_in CUSTOM_BILLING_TRIGGERS _); cbn [urgency priority].
  - intros _. cbn [list_in existsb]. rewrite orb_false_r.
    destruct (String.eqb_spec
                (determine_priority message (fst (classify_category message))
                                    (fst (detect_urgency message))) "P0")
      as [-> | Hne]; cbn [negb]; auto.
  - intros ->. apply Hdp.
Qed.

Lemma urgent_priority_high_witness :
  priority (analyze_ticket "my payment failed and this is urgent") = "P0" \/
  priority (analyze_ticket "my payment failed and this is urgent") = "P1".
Proof.
  apply (proj2 urgent_priority_high "my payment failed and this is urgent").
  reflexivity.
Defined.

(** C10. When the normalized text contains "refund" or "money back" the
    scorer never answers "Other", both triggers being Billing keywords,
    and the final confidence is at least 0.64: the floor 0.3 is out of
    reach for such messages. *)
Theorem override_confidence_floor (message : string) :
  triggers_override (_normalize message) ->
  fst (classify_category message) <> "Other" /\
  PyFloat.leb (PyFloat.lit 64 100) (confidence (analyze_ticket message))
  = true /\
  confidence (analyze_ticket message) <> PyFloat.lit 3 10.
Proof.
  intros Htrig.
  assert (Hb : In ("Billing", keywords_of "Billing") CATEGORY_KEYWORDS)
    by (left; reflexivity).
  assert (Hpos : (0 < hits (keywords_of "Billing") (_normalize message))%nat).
  { destruct Htrig as [H | H].
    - apply (hits_pos "refund"); [cbn; tauto | assumption].
    - apply (hits_pos "money back"); [cbn; tauto | assumption]. }
  assert (Hconf : forall res,
            confidence (_apply_custom_rules message res) = confidence res).
  { intros res. unfold _apply_custom_rules.
    destruct (any_in _ _); reflexivity. }
  rewrite analyze_ticket_unfold, Hconf. cbn [confidence].
  destruct (classify_category_cases message)
    as [[Hnone _] | (c & kws & Hbest & ->)].
  - apply Hnone in Hb. lia.
  - cbn [fst snd].
    pose proof (first_best_In _ _ _ Hbest) as Hin.
    destruct (keywords_of_entry c kws Hin) as (_ & _ & Hne).
    destruct Hbest as (_ & _ & _ & Hhits & _). unfold hits in Hhits.
    split; [assumption | ].
    rewrite calculate_confidence_hundredths.
    apply String.eqb_neq in Hne. rewrite Hne.
    set (n := (List.length (matching kws (_normalize message))
               + List.length (snd (detect_urgency message)))%nat).
    assert (Hn : (1 <= n)%nat) by (subst n; lia).
    destruct n as [ | [ | [ | [ | [ | n]]]]]; try lia;
      (split; [vm_compute; reflexivity | vm_compute; discriminate]).
Qed.

Lemma override_confidence_floor_witness :
  fst (classify_category "I want my money back please") <> "Other" /\
  PyFloat.leb (PyFloat.lit 64 100)
              (confidence (analyze_ticket "I want my money back please"))
  = true /\
  confidence (analyze_ticket "I want my money back please") <> PyFloat.lit 3 10.
Proof.
  apply (override_confidence_floor "I want my money back please").
  right. reflexivity.
Defined.

(* ------------------------------------------------------------------ *)
(** ** Further properties of the analyzer and of the ticket service *)
(* ------------------------------------------------------------------ *)

Import NormalForm NormalizeFacts PipelineFacts.

(** X1. [_normalize] is idempotent: normalizing normalized text changes
    nothing. *)
Theorem normalize_idempotent (text : string) :
  _normalize (_normalize text) = _normalize text.
Proof. apply normalize_idem. Qed.

(** X2. Normalized text has no capital letter, no white space at either
    end, no two spaces in a row, and no white space character other than
    the plain space. *)
Theorem normalize_output_shape (text : string) :
  let s := _normalize text in
  lower s = s /\
  strip s = s /\
  str_in "  " s = false /\
  (forall c, In c (list_ascii_of_string s) ->
             is_space c = true -> c = " "%char).
Proof.
  cbv zeta. destruct (normalize_shape text) as (Hs & He & Hr & Hp).
  split; [apply lower_normalize | ].
  split; [unfold strip; rewrite (lstrip_clean _ Hs); apply rstrip_clean, He | ].
  split; [apply (no_run_double_space _ false), Hr | ].
  intros c Hc Hsp. unfold plain_spaces in Hp.
  rewrite all_chars_In in Hp. specialize (Hp c Hc). cbv beta in Hp.
  rewrite Hsp in Hp. cbn [negb orb] in Hp. apply Ascii.eqb_eq, Hp.
Qed.

(** X3. The normalized text is empty exactly when the message consists of
    white space only (the empty message included). *)
Theorem normalize_empty_iff_blank (text : string) :
  _normalize text = "" <-> blank text = true.
Proof. split; [apply normalize_empty_blank | apply normalize_blank]. Qed.

(** X4. A message of white space only gets the default analysis: category
    "Other", priority "P3", not urgent, no keyword, confidence 0.3. *)
Theorem analyze_ticket_blank (message : string) :
  blank message = true ->
  analyze_ticket message
  = {| category := "Other"; priority := "P3"; urgency := false;
       keywords := []; confidence := PyFloat.lit 3 10 |}.
Proof.
  intros H. rewrite (analyze_ticket_ext message "").
  - vm_compute. reflexivity.
  - rewrite (normalize_blank message H). reflexivity.
Qed.

Lemma analyze_ticket_blank_witness :
  analyze_ticket "    "
  = {| category := "Other"; priority := "P3"; urgency := false;
       keywords := []; confidence := PyFloat.lit 3 10 |}.
Proof. apply (analyze_ticket_blank "    "). vm_compute. reflexivity. Defined.

(** X5. The analysis depends on the message through its normalized text
    only: two messages with the same normalized text get the same
    result. *)
Theorem analyze_ticket_normalized_only (a b : string) :
  _normalize a = _normalize b -> analyze_ticket a = analyze_ticket b.
Proof. apply analyze_ticket_ext. Qed.

Lemma analyze_ticket_normalized_only_witness :
  analyze_ticket "  MY   Payment FAILED " = analyze_ticket "my payment failed".
Proof.
  apply (analyze_ticket_normalized_only
           "  MY   Payment FAILED " "my payment failed").
  vm_compute. reflexivity.
Defined.

(** X6. The analysis ignores letter case and the amount of white space:
    lower-casing, stripping or normalizing the message beforehand gives
    the same result. *)
Theorem analyze_ticket_case_and_spacing (message : string) :
  analyze_ticket (lower message) = analyze_ticket message /\
  analyze_ticket (strip (lower message)) = analyze_ticket message /\
  analyze_ticket (_normalize message) = analyze_ticket message.
Proof.
  split; [ | split]; apply analyze_ticket_ext.
  - apply normalize_lower.
  - unfold _normalize. f_equal.
    assert (E : lower (strip (lower message)) = strip (lower message)).
    { unfold strip. rewrite lower_rstrip, lower_lstrip, lower_idem.
      reflexivity. }
    rewrite E. unfold strip.
    rewrite (lstrip_clean (rstrip (lstrip (lower message))))
      by apply starts_clean_rstrip, starts_clean_lstrip.
    apply rstrip_clean, ends_clean_rstrip.
  - apply normalize_idem.
Qed.

(** X7. [detect_urgency] flags a text exactly when its keyword list is
    not empty, that is exactly when an urgency keyword occurs in the
    normalized text; the list holds the urgency keywords that occur, each
    once. *)
Theorem detect_urgency_sound_complete (text : string) :
  let normalized := _normalize text in
  let r := detect_urgency text in
  (fst r = true <-> snd r <> []) /\
  (fst r = true <->
   exists kw, In kw URGENCY_KEYWORDS /\ str_in kw normalized = true) /\
  (forall kw, In kw (snd r) <->
              In kw URGENCY_KEYWORDS /\ str_in kw normalized = true) /\
  NoDup (snd r).
Proof.
  cbv zeta. split; [apply detect_urgency_flag | ].
  split; [ | split].
  - split.
    + intros H. apply detect_urgency_flag in H.
      unfold detect_urgency in H. cbn [snd] in H.
      destruct (matching URGENCY_KEYWORDS (_normalize text)) as [ | kw l] eqn:E;
        [contradiction | ].
      exists kw. apply matching_In. rewrite E. left. reflexivity.
    + intros (kw & Hin & Hs). apply (detect_urgency_found text kw Hin Hs).
  - intros kw. unfold detect_urgency. cbn [snd]. apply matching_In.
  - unfold detect_urgency. cbn [snd].
    apply NoDup_filter, (nodupb_NoDup URGENCY_KEYWORDS).
    vm_compute. reflexivity.
Qed.

(** X8. A P0 keyword in the normalized text gives priority "P0" in the
    final result, whatever the category, the urgency and the refund
    override. *)
Theorem p0_supremacy (message : string) :
  any_in P0_KEYWORDS (_normalize message) = true ->
  priority (analyze_ticket message) = "P0".
Proof.
  intros H0. rewrite analyze_ticket_unfold.
  assert (Hp : forall c u, determine_priority message c u = "P0").
  { intros c u. unfold determine_priority. rewrite H0. reflexivity. }
  unfold _apply_custom_rules.
  destruct (any_in CUSTOM_BILLING_TRIGGERS _); cbn [priority];
    rewrite Hp; reflexivity.
Qed.

Lemma p0_supremacy_witness :
  priority (analyze_ticket "refund me, there was a data loss") = "P0".
Proof.
  apply (p0_supremacy "refund me, there was a data loss"). reflexivity.
Defined.

(** X9. Priority "P1" has two causes only: the result is urgent, or the
    refund override fired. *)
Theorem p1_needs_urgency_or_override (message : string) :
  priority (analyze_ticket message) = "P1" ->
  urgency (analyze_ticket message) = true \/
  triggers_override (_normalize message).
Proof.
  rewrite analyze_ticket_unfold. unfold _apply_custom_rules.
  destruct (any_in CUSTOM_BILLING_TRIGGERS (_normalize message)) eqn:Hany.
  - intros _. right. rewrite any_in_triggers in Hany.
    apply orb_prop in Hany. exact Hany.
  - cbn [priority urgency]. unfold determine_priority.
    destruct (any_in P0_KEYWORDS _); [discriminate | ].
    destruct (fst (detect_urgency message)) eqn:Hu; [auto | ].
    cbn [orb].
    destruct (any_in P1_KEYWORDS (_normalize message)) eqn:H1.
    + apply any_p1_urgent in H1. rewrite H1 in Hu. discriminate.
    + destruct (list_in _ _); discriminate.
Qed.

Lemma p1_needs_urgency_or_override_witness :
  urgency (analyze_ticket "please fix this asap") = true \/
  triggers_override (_normalize "please fix this asap").
Proof.
  apply (p1_needs_urgency_or_override "please fix this asap"). reflexivity.
Defined.

(** X10. The two low tiers fix the other fields: a "P3" result is not
    urgent and its category is Feature or Other; a "P2" result is not
    urgent and its category is Billing, Technical or Account. *)
Theorem low_priority_fields (message : string) :
  let r := analyze_ticket message in
  (priority r = "P3" ->
   urgency r = false /\ (category r = "Feature" \/ category r = "Other")) /\
  (priority r = "P2" ->
   urgency r = false /\
   (category r = "Billing" \/ category r = "Technical"
    \/ category r = "Account")).
Proof.
  cbv zeta. rewrite analyze_ticket_unfold. unfold _apply_custom_rules.
  pose proof (proj1 (classify_category_shape message)) as Hc.
  cbv zeta in Hc.
  set (c := fst (classify_category message)) in *.
  set (u := fst (detect_urgency message)).
  destruct (any_in CUSTOM_BILLING_TRIGGERS (_normalize message)).
  - cbn [priority urgency category]. cbn [list_in existsb].
    rewrite orb_false_r.
    destruct (String.eqb_spec (determine_priority message c u) "P0")
      as [-> | Hne]; cbn [negb]; split; discriminate.
  - cbn [priority urgency category]. unfold determine_priority.
    destruct (any_in P0_KEYWORDS _); [split; discriminate | ].
    destruct u; cbn [orb]; [split; discriminate | ].
    destruct (any_in P1_KEYWORDS _); [split; discriminate | ].
    cbn [In CATEGORIES] in Hc. cbn [list_in existsb].
    destruct Hc as [<- | [<- | [<- | [<- | [<- | []]]]]]; cbn;
      split; intros H; try discriminate; split; tauto.
Qed.

Lemma low_priority_fields_witness :
  urgency (analyze_ticket "would like a dark mode feature") = false /\
  (category (analyze_ticket "would like a dark mode feature") = "Feature" \/
   category (analyze_ticket "would like a dark mode feature") = "Other").
Proof.
  apply (low_priority_fields "would like a dark mode feature"). reflexivity.
Defined.

(** X11. The confidence of a result is the floor 0.3 exactly when its
    keyword list is empty. *)
Theorem floor_confidence_iff_no_keywords (message : string) :
  confidence (analyze_ticket message) = PyFloat.lit 3 10
  <-> keywords (analyze_ticket message) = [].
Proof.
  rewrite analyze_ticket_keywords_eq.
  rewrite analyze_ticket_unfold, apply_custom_rules_confidence.
  cbn [confidence]. rewrite calculate_confidence_hundredths.
  set (ck := snd (classify_category message)).
  set (uk := snd (detect_urgency message)).
  split.
  - intros H. apply lit_hundredths_floor in H;
      [ | apply confidence_hundredths_scores].
    apply confidence_hundredths_floor in H.
    assert (Hck : ck = []) by (destruct ck; [reflexivity | cbn in H; lia]).
    assert (Huk : uk = []) by (destruct uk; [reflexivity | cbn in H; lia]).
    rewrite Hck, Huk. cbn [app].
    destruct (str_in "refund" (_normalize message)) eqn:Hr;
      [destruct (trigger_matched message (or_introl Hr)) as [_ Hne];
       fold ck in Hne; contradiction | ].
    destruct (str_in "money back" (_normalize message)) eqn:Hm;
      [destruct (trigger_matched message (or_intror Hm)) as [_ Hne];
       fold ck in Hne; contradiction | ].
    cbn [filter CUSTOM_BILLING_TRIGGERS]. rewrite Hr, Hm. reflexivity.
  - intros H. apply app_eq_nil in H. destruct H as [H _].
    apply app_eq_nil in H. destruct H as [-> ->]. reflexivity.
Qed.

(** X12. Every keyword of a result occurs in the normalized text and is
    an entry of the keyword tables: an urgency keyword or a keyword of
    some category. *)
Theorem keywords_occur_in_text (message kw : string) :
  In kw (keywords (analyze_ticket message)) ->
  str_in kw (_normalize message) = true /\
  (In kw URGENCY_KEYWORDS \/
   exists c kws, In (c, kws) CATEGORY_KEYWORDS /\ In kw kws).
Proof. apply analyze_ticket_keywords_source. Qed.

Lemma keywords_occur_in_text_witness :
  str_in "payment" (_normalize "My PAYMENT failed") = true /\
  (In "payment" URGENCY_KEYWORDS \/
   exists c kws, In (c, kws) CATEGORY_KEYWORDS /\ In "payment" kws).
Proof.
  apply (keywords_occur_in_text "My PAYMENT failed" "payment").
  vm_compute. left. reflexivity.
Defined.

(** X13. A refund trigger that occurs in the normalized text is among the
    keywords of the result. *)
Theorem trigger_in_keywords (message trigger : string) :
  In trigger CUSTOM_BILLING_TRIGGERS ->
  str_in trigger (_normalize message) = true ->
  In trigger (keywords (analyze_ticket message)).
Proof.
  intros Hin Hs. rewrite analyze_ticket_keywords_eq.
  set (found := snd (classify_category message)
                ++ snd (detect_urgency message)).
  destruct (list_in trigger found) eqn:E.
  - apply in_or_app. left. apply list_in_true_iff, E.
  - apply in_or_app. right. apply filter_In.
    split; [assumption | ]. rewrite Hs, E. reflexivity.
Qed.

Lemma trigger_in_keywords_witness :
  In "refund" (keywords (analyze_ticket "error, bug: need a refund now")).
Proof.
  apply (trigger_in_keywords "error, bug: need a refund now" "refund").
  - left. reflexivity.
  - reflexivity.
Defined.

(** X14. [_apply_custom_rules] is idempotent on any provisional result,
    and leaves the result untouched when no trigger occurs. *)
Theorem apply_custom_rules_idempotent (text : string) (res : AnalysisResult) :
  _apply_custom_rules text (_apply_custom_rules text res)
  = _apply_custom_rules text res
  /\ (any_in CUSTOM_BILLING_TRIGGERS (_normalize text) = false ->
      _apply_custom_rules text res = res).
Proof.
  unfold _apply_custom_rules.
  destruct (any_in CUSTOM_BILLING_TRIGGERS (_normalize text)) eqn:Hany;
    [ | split; reflexivity].
  split; [ | discriminate].
  cbn [category priority urgency keywords confidence].
  f_equal.
  - cbn [list_in existsb]. rewrite !orb_false_r.
    destruct (String.eqb_spec (priority res) "P0") as [E | Hne];
      cbn [negb]; [ | reflexivity].
    rewrite E. reflexivity.
  - rewrite !override_keywords.
    set (n := _normalize text). set (kws := keywords res).
    cbn [filter CUSTOM_BILLING_TRIGGERS].
    destruct (str_in "refund" n), (str_in "money back" n),
      (list_in "refund" kws) eqn:Er, (list_in "money back" kws) eqn:Em;
      cbn [andb negb app]; rewrite ?app_nil_r, ?list_in_app, ?Er, ?Em;
      cbn; rewrite ?Er, ?Em, ?app_nil_r; reflexivity.
Qed.

(** X15. The category boost: for the same keyword lists a category other
    than "Other" never scores below "Other", and scores strictly above it
    as soon as one keyword matched. *)
Theorem category_boost (m u : list string) (category : string) :
  category <> "Other" ->
  PyFloat.leb (calculate_confidence m u "Other")
              (calculate_confidence m u category) = true /\
  (m ++ u <> [] ->
   PyFloat.ltb (calculate_confidence m u "Other")
               (calculate_confidence m u category) = true).
Proof.
  intros Hne. rewrite !calculate_confidence_hundredths.
  apply String.eqb_neq in Hne. rewrite Hne.
  change (String.eqb "Other" "Other") with true.
  set (n := (List.length m + List.length u)%nat).
  destruct (confidence_hundredths_boost n) as [Hle Hlt].
  split.
  - apply lit_hundredths_mono;
      [apply confidence_hundredths_scores .. | exact Hle].
  - intros Hmu.
    apply lit_hundredths_lt; [apply confidence_hundredths_scores .. | ].
    apply Hlt. subst n.
    destruct m; [destruct u; [contradiction | ] | ]; cbn; lia.
Qed.

Lemma category_boost_witness :
  PyFloat.ltb (calculate_confidence ["payment"] [] "Other")
              (calculate_confidence ["payment"] [] "Billing") = true.
Proof.
  apply (category_boost ["payment"] [] "Billing");
    intros H; discriminate H.
Defined.

(** X16. The score saturates at five matches: with five matched keywords
    or more it is 1.0, or 0.95 for category "Other", however long the
    lists are. *)
Theorem confidence_saturates (m u : list string) (category : string) :
  (5 <= List.length m + List.length u)%nat ->
  calculate_confidence m u category
  = if String.eqb category "Other"
    then PyFloat.lit 95 100 else PyFloat.lit 1 1.
Proof.
  intros H. rewrite calculate_confidence_hundredths.
  set (n := (List.length m + List.length u)%nat) in *.
  destruct n as [ | [ | [ | [ | [ | n]]]]]; try lia.
  cbn [confidence_hundredths].
  destruct (String.eqb category "Other"); reflexivity.
Qed.

Lemma confidence_saturates_witness :
  calculate_confidence
    ["payment"; "refund"; "invoice"; "charge"] ["urgent"; "asap"] "Billing"
  = PyFloat.lit 1 1.
Proof.
  apply (confidence_saturates
           ["payment"; "refund"; "invoice"; "charge"] ["urgent"; "asap"]
           "Billing").
  cbn [List.length Nat.add]. lia.
Defined.

(** X17. [classify_category] answers "Other" exactly when it returns no
    keyword, and every keyword it returns occurs in the normalized text
    and belongs to the list of the returned category. *)
Theorem classify_category_other_iff_empty (text : string) :
  let r := classify_category text in
  (fst r = "Other" <-> snd r = []) /\
  (forall kw, In kw (snd r) ->
              str_in kw (_normalize text) = true /\
              In kw (keywords_of (fst r))).
Proof.
  cbv zeta.
  destruct (classify_category_cases text)
    as [[_ ->] | (c & kws & Hbest & ->)]; cbn [fst snd].
  - split; [split; reflexivity | intros kw []].
  - pose proof (first_best_In _ _ _ Hbest) as Hin.
    destruct (keywords_of_entry c kws Hin) as (-> & _ & Hne).
    destruct Hbest as (_ & _ & _ & Hhits & _). unfold hits in Hhits.
    split.
    + split; [intros E; contradiction | ].
      intros E. rewrite E in Hhits. cbn in Hhits. lia.
    + intros kw Hkw. apply matching_In in Hkw. tauto.
Qed.

(** X18. The keyword column round trip: a list of keywords, none empty and
    none with a comma, that is stored as [",".join(...)] is read back
    unchanged by the response builders; the empty list is read back as
    the empty list. *)
Theorem keywords_column_round_trip
    (t : TicketService.Ticket) (l : list string) :
  TicketService.keywords t = TicketService.join "," l ->
  (forall kw, In kw l -> kw <> "" /\ str_in "," kw = false) ->
  TicketService.response_keywords t = l.
Proof. apply response_keywords_join. Qed.

Lemma keywords_column_round_trip_witness :
  TicketService.response_keywords
    (TicketService.mkTicket "m" "Billing" "P1" true
       "payment,money back,urgent" (PyFloat.lit 82 100))
  = ["payment"; "money back"; "urgent"].
Proof.
  apply (keywords_column_round_trip
           (TicketService.mkTicket "m" "Billing" "P1" true
              "payment,money back,urgent" (PyFloat.lit 82 100))
           ["payment"; "money back"; "urgent"]).
  - reflexivity.
  - intros kw H. cbn [In] in H.
    repeat (destruct H as [<- | H]; [split; [discriminate | reflexivity] | ]).
    destruct H.
Defined.

(** X19. For every message the keyword list of the response built from
    the stored row is the keyword list of the analysis, and the other
    columns of the row are the fields of the analysis. *)
Theorem response_keywords_of_new_ticket (msg : string) :
  let t := TicketService.new_ticket msg in
  let r := analyze_ticket msg in
  TicketService.response_keywords t = keywords r /\
  TicketService.message t = msg /\
  TicketService.category t = category r /\
  TicketService.priority t = priority r /\
  TicketService.urgency t = urgency r /\
  TicketService.confidence t = confidence r.
Proof.
  cbv zeta. split; [ | repeat split].
  apply (response_keywords_join _ (keywords (analyze_ticket msg)));
    [reflexivity | ].
  intros kw Hkw. apply table_keywords_plain.
  apply (analyze_ticket_keywords_source msg kw Hkw).
Qed.
